(** * Rabbitry farm management API: the advisory endpoints

    A shallow embedding of [src/main.py]: the medication listing with its
    active-window filter ([list_medication]), the breeding planner
    ([breeding_plan]) and the symptom checker ([symptom_check]).

    Documents fetched from the record store are Python dicts; they are
    modelled as finite maps from field names to values.  The collections
    read by the code below ([Rabbit], [Breeding], [MedicationSchedule] of
    [src/schemas.py]) only have string, date and optional fields, hence the
    three kinds of values.  A date is represented by its proleptic Gregorian
    ordinal ([date.toordinal()]), so that [a - b] is [(a - b).days] and
    [d + 31] is [d + timedelta(days=31)]. *)

From Stdlib Require Import ZArith List Ascii String Bool Lia.
From stdpp Require Import base decidable countable list option strings gmap.

Local Open Scope string_scope.
Local Open Scope list_scope.
Local Open Scope Z_scope.

(** ** Python values and documents *)

Inductive value :=
  | VNone
  | VStr (s : string)
  | VDate (d : Z).

#[global] Instance value_eq_dec : EqDecision value.
Proof. solve_decision. Defined.

#[global] Instance value_countable : Countable value.
Proof.
  refine (inj_countable'
    (fun v => match v with
              | VNone => inl tt
              | VStr s => inr (inl s)
              | VDate d => inr (inr d)
              end)
    (fun x => match x with
              | inl _ => VNone
              | inr (inl s) => VStr s
              | inr (inr d) => VDate d
              end) _).
  by intros [].
Defined.

Abbreviation doc := (gmap string value).

(** [r.get(k)]: a missing key reads as [None]. *)
Definition get (r : doc) (k : string) : value := default VNone (r !! k).

(** [r.get(k, dflt)]: only a missing key takes the default. *)
Definition get_or (r : doc) (k : string) (dflt : value) : value :=
  default dflt (r !! k).

(** Truth value of a Python object: [None] and the empty string are false,
    a date is always true. *)
Definition truthy (v : value) : bool :=
  match v with
  | VNone => false
  | VStr s => negb (String.eqb s "")
  | VDate _ => true
  end.

(** [a == b] on values. *)
Definition py_eq (a b : value) : bool := bool_decide (a = b).

(** [a in {b, c}]. *)
Definition in_pair (a b c : value) : bool := py_eq a b || py_eq a c.

(** Outcome of a call that may raise. *)
Inductive exn := ValueError.

Inductive result (A : Type) :=
  | Ok (a : A)
  | Raise (e : exn).
Arguments Ok {A} a.
Arguments Raise {A} e.

#[global] Instance exn_eq_dec : EqDecision exn.
Proof. solve_decision. Defined.

#[global] Instance result_eq_dec {A} `{EqDecision A} : EqDecision (result A).
Proof. solve_decision. Defined.

(** ** The calendar functions of the Python runtime

    [date.fromisoformat] and [date.isoformat] belong to the standard
    library, not to the repository.  The endpoints are parameterised by
    them; [PyDate] gives the instance used to evaluate the endpoints on
    concrete documents. *)

Module PyDate.

Definition is_leap (y : Z) : bool :=
  (y mod 4 =? 0) && (negb (y mod 100 =? 0) || (y mod 400 =? 0)).

Definition days_in_month (y m : Z) : Z :=
  if m =? 2 then (if is_leap y then 29 else 28)
  else if (m =? 4) || (m =? 6) || (m =? 9) || (m =? 11) then 30
  else 31.

Definition days_before_year (y : Z) : Z :=
  let p := y - 1 in p * 365 + p / 4 - p / 100 + p / 400.

Fixpoint days_before_month_aux (y : Z) (k : nat) : Z :=
  match k with
  | O => 0
  | S k' => days_before_month_aux y k' + days_in_month y (Z.of_nat k)
  end.

(** Days of year [y] before the first of month [m]. *)
Definition days_before_month (y m : Z) : Z :=
  days_before_month_aux y (Z.to_nat (m - 1)).

Definition ymd2ord (y m d : Z) : Z :=
  days_before_year y + days_before_month y m + d.

Definition valid_ymd (y m d : Z) : bool :=
  (1 <=? y) && (y <=? 9999) && (1 <=? m) && (m <=? 12)
  && (1 <=? d) && (d <=? days_in_month y m).

(** The month and day of the [n]-th day (from 0) of year [y], searching
    the months upwards from [m]. *)
Fixpoint month_day (y : Z) (fuel : nat) (m n : Z) : Z * Z :=
  match fuel with
  | O => (m, n + 1)
  | S fuel' =>
      let dim := days_in_month y m in
      if n <? dim then (m, n + 1) else month_day y fuel' (m + 1) (n - dim)
  end.

(** Inverse of [ymd2ord]: the year, month and day of an ordinal. *)
Definition ord2ymd (n : Z) : Z * Z * Z :=
  let n0 := n - 1 in
  let n400 := n0 / 146097 in
  let r400 := n0 mod 146097 in
  let n100 := r400 / 36524 in
  let r100 := r400 mod 36524 in
  let n4 := r100 / 1461 in
  let r4 := r100 mod 1461 in
  let n1 := r4 / 365 in
  let r1 := r4 mod 365 in
  let y := n400 * 400 + n100 * 100 + n4 * 4 + n1 + 1 in
  if (n1 =? 4) || (n100 =? 4) then (y - 1, 12, 31)
  else let '(m, d) := month_day y 11 1 r1 in (y, m, d).

Definition digit (k : Z) : ascii := ascii_of_nat (Z.to_nat (48 + k mod 10)).

Definition pad2 (k : Z) : string :=
  String (digit (k / 10)) (String (digit k) "").

Definition pad4 (k : Z) : string :=
  String (digit (k / 1000)) (String (digit (k / 100)) (pad2 k)).

(** [d.isoformat()], which is also [str(d)]: [YYYY-MM-DD]. *)
Definition isoformat (n : Z) : string :=
  let '(y, m, d) := ord2ymd n in
  pad4 y +:+ "-" +:+ pad2 m +:+ "-" +:+ pad2 d.

Definition digit_val (c : ascii) : option Z :=
  let n := Z.of_nat (nat_of_ascii c) in
  if (48 <=? n) && (n <=? 57) then Some (n - 48) else None.

Fixpoint number (acc : Z) (cs : list ascii) : option Z :=
  match cs with
  | [] => Some acc
  | c :: cs' =>
      match digit_val c with
      | Some k => number (10 * acc + k) cs'
      | None => None
      end
  end.

(** [date.fromisoformat(s)] on the format [YYYY-MM-DD]; [None] stands for
    the [ValueError] it raises on anything else. *)
Definition fromisoformat (s : string) : option Z :=
  match list_ascii_of_string s with
  | [y1; y2; y3; y4; "-"%char; m1; m2; "-"%char; d1; d2] =>
      match number 0 [y1; y2; y3; y4], number 0 [m1; m2], number 0 [d1; d2] with
      | Some y, Some m, Some d =>
          if valid_ymd y m d then Some (ymd2ord y m d) else None
      | _, _, _ => None
      end
  | _ => None
  end.

End PyDate.

(** The part of the runtime the endpoints call: the two calendar functions
    and the clock.  The code reads [date.today()] at several places of one
    request; [date_today] is the day they all return, for a request that
    does not run across midnight. *)
Class Runtime := {
  fromisoformat : string -> option Z;
  isoformat : Z -> string;
  date_today : Z
}.

(** The runtime of the examples: the [PyDate] calendar on a given day. *)
Definition py_runtime (today : Z) : Runtime :=
  {| fromisoformat := PyDate.fromisoformat;
     isoformat := PyDate.isoformat;
     date_today := today |}.

(** ** Utility *)

Section Utility.
Context {rt : Runtime}.

(** [str(v)], also what an f-string prints for [v]. *)
Definition str (v : value) : string :=
  match v with
  | VNone => "None"
  | VStr s => s
  | VDate d => isoformat d
  end.

(** Copies every document and stringifies its ["_id"], when it has one. *)
Definition to_dict_list (docs : list doc) : list doc :=
  map (fun d => match d !! "_id" with
                | Some i => <["_id" := VStr (str i)]> d
                | None => d
                end) docs.

Definition parse_date_safe (value : option string) : option Z :=
  match value with
  | None => None
  | Some s => if String.eqb s "" then None else fromisoformat s
  end.

End Utility.

(** ** Medication schedules *)

Section Medication.
Context {rt : Runtime}.

(** Line 193: the start date is parsed outside any [try]. *)
Definition start_date_of (r : doc) : result (option Z) :=
  if truthy (get r "start_date") then
    match fromisoformat (str (get r "start_date")) with
    | Some d => Ok (Some d)
    | None => Raise ValueError
    end
  else Ok None.

(** Lines 194-199: a failure to parse the end date leaves [ed = None]. *)
Definition end_date_of (r : doc) : option Z :=
  if truthy (get r "end_date") then fromisoformat (str (get r "end_date"))
  else None.

(** Line 200: [sd and sd <= today_date and (ed is None or today_date <= ed)]. *)
Definition in_window (today_date : Z) (sd ed : option Z) : bool :=
  match sd with
  | Some s =>
      (s <=? today_date)
      && match ed with None => true | Some e => today_date <=? e end
  | None => false
  end.

(** The loop of lines 192-201, with [active] as its accumulator. *)
Fixpoint active_loop (today_date : Z) (records active : list doc)
  : result (list doc) :=
  match records with
  | [] => Ok active
  | r :: rest =>
      match start_date_of r with
      | Raise e => Raise e
      | Ok sd =>
          if in_window today_date sd (end_date_of r)
          then active_loop today_date rest (active ++ [r])
          else active_loop today_date rest active
      end
  end.

(** [GET /medication]; [docs] is what the record store returns for the
    [rabbit_tag] filter and the [limit]. *)
Definition list_medication (docs : list doc) (active_only : bool)
    (today : option string) : result (list doc) :=
  let records := to_dict_list docs in
  if active_only then
    let today_date := default date_today (parse_date_safe today) in
    active_loop today_date records []
  else Ok records.

End Medication.

(** ** Breeding planner *)

Record BreedingPlanInput := {
  min_doe_age_days : Z;
  min_buck_age_days : Z;
  cooldown_days : Z
}.

Record pair := {
  doe_tag : value;
  buck_tag : value;
  reason : string;
  expected_kindling : string
}.

#[global] Instance pair_eq_dec : EqDecision pair.
Proof. solve_decision. Defined.

Record task := {
  title : string;
  due_date : string;
  assigned_to : string;
  rabbit_tag : value;
  status : string;
  notes : string
}.

Record summary := {
  eligible_does : nat;
  eligible_bucks : nat;
  suggested_count : nat
}.

Record plan := {
  suggested_pairs : list pair;
  tasks : list task;
  plan_summary : summary
}.

Section Planner.
Context {rt : Runtime}.

(** Lines 231-243: [None] when the date of birth is missing, empty or
    does not parse. *)
Definition age_in_days (r : doc) : option Z :=
  let dob := get r "dob" in
  if negb (truthy dob) then None
  else
    match dob with
    | VDate d => Some (date_today - d)
    | _ =>
        match fromisoformat (str dob) with
        | Some d => Some (date_today - d)
        | None => None
        end
    end.

(** Lines 245-246: the base filter of a sex. *)
Definition is_active (sex : string) (r : doc) : bool :=
  py_eq (get r "sex") (VStr sex)
  && py_eq (get_or r "status" (VStr "active")) (VStr "active").

(** Lines 250-260: the latest breeding date of every doe tag. *)
Fixpoint index_breedings (breedings : list doc) (last_bred : gmap value Z)
  : gmap value Z :=
  match breedings with
  | [] => last_bred
  | b :: rest =>
      let doe := get b "doe_tag" in
      let dt := get b "date_bred" in
      if truthy doe && truthy dt then
        match (match dt with
               | VDate d => Some d
               | _ => fromisoformat (str dt)
               end) with
        | Some d =>
            if match last_bred !! doe with
               | None => true
               | Some old => old <? d
               end
            then index_breedings rest (<[doe := d]> last_bred)
            else index_breedings rest last_bred
        | None => index_breedings rest last_bred
        end
      else index_breedings rest last_bred
  end.

(** Lines 265 and 274: [age is not None and age < minimum]. *)
Definition too_young (age : option Z) (minimum : Z) : bool :=
  match age with
  | Some a => a <? minimum
  | None => false
  end.

(** Line 269: [lb and (date.today() - lb).days < cooldown_days]. *)
Definition in_cooldown (lb : option Z) (cooldown : Z) : bool :=
  match lb with
  | Some d => date_today - d <? cooldown
  | None => false
  end.

(** Lines 283-289. *)
Definition make_pair (doe buck : doc) : pair :=
  let exp_kindling := date_today + 31 in
  {| doe_tag := get doe "tag";
     buck_tag := get buck "tag";
     reason := "Meets age and cooldown; not closely related";
     expected_kindling := isoformat exp_kindling |}.

(** The inner loop, lines 272-290: every [continue] goes on with the
    remaining bucks, the [break] leaves the loop. *)
Fixpoint scan_bucks (params : BreedingPlanInput) (doe : doc)
    (bucks : list doc) (suggested : list pair) : list pair :=
  match bucks with
  | [] => suggested
  | buck :: rest =>
      if too_young (age_in_days buck) (min_buck_age_days params)
      then scan_bucks params doe rest suggested
      else if py_eq (get buck "tag") (get doe "tag")
      then scan_bucks params doe rest suggested
      else if in_pair (get buck "tag") (get doe "sire_tag") (get doe "dam_tag")
      then scan_bucks params doe rest suggested
      else if in_pair (get doe "tag") (get buck "sire_tag") (get buck "dam_tag")
      then scan_bucks params doe rest suggested
      else suggested ++ [make_pair doe buck]
  end.

(** The outer loop, lines 263-290. *)
Fixpoint scan_does (params : BreedingPlanInput) (last_bred : gmap value Z)
    (bucks does : list doc) (suggested : list pair) : list pair :=
  match does with
  | [] => suggested
  | doe :: rest =>
      if too_young (age_in_days doe) (min_doe_age_days params)
      then scan_does params last_bred bucks rest suggested
      else if in_cooldown (last_bred !! get doe "tag") (cooldown_days params)
      then scan_does params last_bred bucks rest suggested
      else scan_does params last_bred bucks rest
             (scan_bucks params doe bucks suggested)
  end.

(** Lines 293-303. *)
Definition make_task (p : pair) : task :=
  {| title := "Breed " +:+ str (doe_tag p) +:+ " to " +:+ str (buck_tag p);
     due_date := isoformat date_today;
     assigned_to := "breeding";
     rabbit_tag := doe_tag p;
     status := "todo";
     notes := "Expected kindling " +:+ expected_kindling p |}.

(** [POST /agents/breeding/plan]; [rabbit_docs] and [breeding_docs] are
    the two collections as the record store returns them. *)
Definition breeding_plan (params : BreedingPlanInput)
    (rabbit_docs breeding_docs : list doc) : plan :=
  let rabbits := to_dict_list rabbit_docs in
  let does := List.filter (is_active "doe") rabbits in
  let bucks := List.filter (is_active "buck") rabbits in
  let breedings := to_dict_list breeding_docs in
  let last_bred := index_breedings breedings ∅ in
  let pairs := scan_does params last_bred bucks does [] in
  {| suggested_pairs := pairs;
     tasks := map make_task pairs;
     plan_summary :=
       {| eligible_does := length does;
          eligible_bucks := length bucks;
          suggested_count := length pairs |} |}.

End Planner.

(** ** Symptom checker *)

(** [str.strip] and [str.lower] on ASCII text: the blanks are the
    characters 9 to 13 and 28 to 32, the capitals are A to Z. *)
Definition is_space (c : ascii) : bool :=
  let n := nat_of_ascii c in
  ((9 <=? n) && (n <=? 13) || (28 <=? n) && (n <=? 32))%nat.

Fixpoint lstrip (s : string) : string :=
  match s with
  | String c s' => if is_space c then lstrip s' else s
  | EmptyString => EmptyString
  end.

Fixpoint rstrip (s : string) : string :=
  match s with
  | String c s' =>
      match rstrip s' with
      | EmptyString => if is_space c then EmptyString else String c EmptyString
      | t => String c t
      end
  | EmptyString => EmptyString
  end.

Definition ascii_strip (s : string) : string := rstrip (lstrip s).

Definition lower_char (c : ascii) : ascii :=
  let n := nat_of_ascii c in
  if ((65 <=? n) && (n <=? 90))%nat then ascii_of_nat (n + 32) else c.

Fixpoint ascii_lower (s : string) : string :=
  match s with
  | String c s' => String (lower_char c) (ascii_lower s')
  | EmptyString => EmptyString
  end.

(** The text functions of the Python runtime that the symptom checker
    calls.  [str.strip] and [str.lower] follow Unicode (a no-break space is
    stripped, a Kelvin sign is lower-cased to k), and [list(set)] lists a
    set in an order that depends on the hashes of the process: they belong
    to the standard library, and the checker is parameterised by them.  A
    text is held as its UTF-8 bytes; [set_list items] is the list that
    [list] makes of the set into which [items] were inserted in turn. *)
Class PyText := {
  str_strip : string -> string;
  str_lower : string -> string;
  set_list : list string -> list string
}.

(** The text functions of the examples: the ASCII ones, and the elements
    of a set in the order of their first insertion. *)
Definition ascii_text : PyText :=
  {| str_strip := ascii_strip;
     str_lower := ascii_lower;
     set_list := remove_dups |}.

Definition is_ascii (s : string) : bool :=
  forallb (fun c => (nat_of_ascii c <? 128)%nat) (list_ascii_of_string s).

(** On ASCII text the runtime strips and lower-cases as the ASCII
    functions do. *)
Definition ascii_faithful (tx : PyText) : Prop :=
  forall s, is_ascii s = true ->
    str_strip s = ascii_strip s /\ str_lower s = ascii_lower s.

Record SymptomCheck := {
  sc_rabbit_tag : option string;
  sc_symptoms : list string
}.

Record rule := {
  match_any : gset string;
  rule_condition : string;
  rule_severity : string;
  actions : list string;
  tips : list string
}.

Record finding := {
  condition : string;
  severity : string;
  immediate_actions : list string;
  monitoring_tips : list string
}.

Record check_result := {
  res_rabbit_tag : option string;
  reported_symptoms : list string;
  probable_conditions : list finding;
  overall_severity : string;
  history : list doc;
  disclaimer : string
}.

(** Lines 317-369. *)
Definition rules : list rule := [
  {| match_any := {["diarrhea"; "runny stool"]};
     rule_condition := "Enteritis/Diarrhea";
     rule_severity := "medium";
     actions := [
       "Isolate affected rabbit and ensure hydration";
       "Remove fresh greens; offer hay and water";
       "Consult vet for antidiarrheals if severe or persistent" ];
     tips := ["Monitor stool consistency and appetite daily"] |};
  {| match_any := {["head tilt"; "nystagmus"; "loss of balance"]};
     rule_condition := "Possible E. cuniculi or inner ear infection";
     rule_severity := "high";
     actions := [
       "Seek veterinary evaluation promptly";
       "Minimize stress and provide safe padded area" ];
     tips := ["Record onset time and any trauma history"] |};
  {| match_any := {["sneezing"; "nasal discharge"; "runny nose"]};
     rule_condition := "Upper respiratory signs";
     rule_severity := "medium";
     actions := [
       "Check environment (dust, ammonia, drafts)";
       "Consult vet; avoid penicillins orally in rabbits" ];
     tips := ["Track temperature and breathing effort"] |};
  {| match_any := {["not eating"; "anorexia"; "no feces"; "bloat"]};
     rule_condition := "GI stasis";
     rule_severity := "high";
     actions := [
       "Urgent vet care if severe; encourage hydration";
       "Provide safe warmth and gentle tummy massage if trained" ];
     tips := ["Log fecal output and weight every 12h"] |};
  {| match_any := {["mites"; "itching"; "flaky skin"; "crusty ears"]};
     rule_condition := "Parasites (fur/ear mites)";
     rule_severity := "low";
     actions := [
       "Topical ivermectin or selamectin per vet guidance";
       "Clean environment; treat in-contact rabbits" ];
     tips := ["Recheck in 7-14 days"] |}
].

Section Normalize.
Context {tx : PyText}.

(** Line 315: the stripped, lower-cased, non-blank symptoms, in the order
    in which the comprehension inserts them into the set. *)
Definition normalized (symptoms : list string) : list string :=
  map (fun s => str_lower (str_strip s))
      (List.filter (fun s => negb (String.eqb (str_strip s) "")) symptoms).

(** The set [symptoms] of line 315. *)
Definition normalize (symptoms : list string) : gset string :=
  list_to_set (normalized symptoms).

End Normalize.

(** Lines 371-379, with [findings] as the accumulator. *)
Fixpoint match_rules (symptoms : gset string) (rs : list rule)
    (findings : list finding) : list finding :=
  match rs with
  | [] => findings
  | r :: rest =>
      if bool_decide (symptoms ∩ match_any r ≠ ∅)
      then match_rules symptoms rest
             (findings ++ [{| condition := rule_condition r;
                              severity := rule_severity r;
                              immediate_actions := actions r;
                              monitoring_tips := tips r |}])
      else match_rules symptoms rest findings
  end.

(** Lines 381-385. *)
Definition overall (findings : list finding) : string :=
  if existsb (fun f => String.eqb (severity f) "high") findings then "high"
  else if existsb (fun f => String.eqb (severity f) "medium") findings
  then "medium"
  else "low".

Section Symptoms.
Context {rt : Runtime} {tx : PyText}.

(** [POST /agents/health/check]; [hist_docs] is what the record store
    returns for the ten latest health records of the rabbit. *)
Definition symptom_check (payload : SymptomCheck) (hist_docs : list doc)
  : check_result :=
  let symptoms := normalize (sc_symptoms payload) in
  let findings := match_rules symptoms rules [] in
  let overall_severity := overall findings in
  let history :=
    match sc_rabbit_tag payload with
    | Some t => if String.eqb t "" then [] else to_dict_list hist_docs
    | None => []
    end in
  {| res_rabbit_tag := sc_rabbit_tag payload;
     reported_symptoms := set_list (normalized (sc_symptoms payload));
     probable_conditions := findings;
     overall_severity := overall_severity;
     history := history;
     disclaimer :=
       "This is guidance only and not a diagnosis. Consult a veterinarian." |}.

End Symptoms.

(** ** The endpoints in the words of the specification

    These definitions follow [spec.md], not the code; the theorems below
    compare them with the loops above. *)

Section Specification.
Context {rt : Runtime}.

(** The candidate rabbits of a sex: the base filter on sex and status. *)
Definition candidates (sex : string) (rabbit_docs : list doc) : list doc :=
  List.filter (is_active sex) (to_dict_list rabbit_docs).

(** The doe passes the age check and the cooldown check. *)
Definition doe_ready (params : BreedingPlanInput) (last_bred : gmap value Z)
    (doe : doc) : bool :=
  negb (too_young (age_in_days doe) (min_doe_age_days params))
  && negb (in_cooldown (last_bred !! get doe "tag") (cooldown_days params)).

(** The buck, the doe, or one of the two being a recorded parent of the
    other: the one-generation relatedness exclusion. *)
Definition closely_related (doe buck : doc) : bool :=
  py_eq (get buck "tag") (get doe "tag")
  || in_pair (get buck "tag") (get doe "sire_tag") (get doe "dam_tag")
  || in_pair (get doe "tag") (get buck "sire_tag") (get buck "dam_tag").

(** The buck passes the age, same-tag and relatedness checks. *)
Definition eligible_buck (params : BreedingPlanInput) (doe buck : doc)
  : bool :=
  negb (too_young (age_in_days buck) (min_buck_age_days params))
  && negb (closely_related doe buck).

(** The suggestion for one doe: the first eligible buck in input order. *)
Definition suggestion (params : BreedingPlanInput)
    (last_bred : gmap value Z) (bucks : list doc) (doe : doc)
  : option pair :=
  if doe_ready params last_bred doe
  then make_pair doe <$> List.find (eligible_buck params doe) bucks
  else None.

(** The date a field holds: none when the field is missing, null or
    empty, or when its text is not a date. *)
Definition field_date (v : value) : option Z :=
  match v with
  | VNone => None
  | VStr s => if String.eqb s "" then None else fromisoformat s
  | VDate d => Some d
  end.

(** [start_date <= today <= end_date], or [end_date] absent. *)
Definition active_on (today : Z) (r : doc) : bool :=
  match field_date (get r "start_date") with
  | Some sd =>
      (sd <=? today)
      && match field_date (get r "end_date") with
         | Some ed => today <=? ed
         | None => true
         end
  | None => false
  end.

(** A stored date prints to a text that reads back as the same date. *)
Definition prints_back (v : value) : Prop :=
  match v with
  | VDate d => fromisoformat (isoformat d) = Some d
  | _ => True
  end.

(** A schedule as the schema has it: the start date is a date (or its
    ISO text) and the end date, when present, prints back. *)
Definition well_dated (r : doc) : Prop :=
  prints_back (get r "start_date")
  /\ prints_back (get r "end_date")
  /\ (forall s, get r "start_date" = VStr s -> s <> "" ->
        is_Some (fromisoformat s)).

(** The dates of the breedings that reference the doe tag [k], in input
    order; a breeding without a tag, without a date, or with a date that
    does not parse has none. *)
Definition dates_bred (k : value) (breedings : list doc) : list Z :=
  omap (fun b =>
          if truthy (get b "doe_tag") && bool_decide (get b "doe_tag" = k)
          then field_date (get b "date_bred")
          else None) breedings.

(** The most recent of the date [seen] so far and the dates [ds]. *)
Definition latest (seen : option Z) (ds : list Z) : option Z :=
  foldl (fun acc d => Some (from_option (Z.max d) d acc)) seen ds.

(** The date of birth of the rabbit is missing, null, empty or not a
    date. *)
Definition dob_unknown (r : doc) : Prop :=
  match get r "dob" with
  | VNone => True
  | VStr s => s = "" \/ fromisoformat s = None
  | VDate _ => False
  end.

End Specification.

(** high > medium > low. *)
Definition severity_rank (s : string) : nat :=
  if String.eqb s "high" then 2
  else if String.eqb s "medium" then 1
  else 0.

Definition finding_of (r : rule) : finding :=
  {| condition := rule_condition r;
     severity := rule_severity r;
     immediate_actions := actions r;
     monitoring_tips := tips r |}.

(** The rule matches: its triggers meet the submitted set. *)
Definition matches (symptoms : gset string) (r : rule) : bool :=
  bool_decide (symptoms ∩ match_any r ≠ ∅).

(** ** Documents of the examples *)

Module Example.

(** 2024-06-15. *)
Definition today : Z := 739052.

Definition rt : Runtime := py_runtime today.

Definition defaults : BreedingPlanInput :=
  {| min_doe_age_days := 154; min_buck_age_days := 154; cooldown_days := 14 |}.

Definition rabbit (tag sex : string) (dob sire dam : value) : doc :=
  {[ "tag" := VStr tag; "sex" := VStr sex; "dob" := dob;
     "sire_tag" := sire; "dam_tag" := dam ]}.

Definition breeding (doe buck : string) (date_bred : value) : doc :=
  {[ "doe_tag" := VStr doe; "buck_tag" := VStr buck;
     "date_bred" := date_bred ]}.

Definition schedule (start_date end_date : value) : doc :=
  {[ "rabbit_tag" := VStr "D1"; "med_name" := VStr "meloxicam";
     "dose" := VStr "0.5 mg"; "start_date" := start_date;
     "end_date" := end_date ]}.

(** A doe aged exactly 154 days, one aged 153 days, and an old one. *)
Definition doe_154 : doc := rabbit "D1" "doe" (VDate (today - 154)) VNone VNone.
Definition doe_153 : doc := rabbit "D2" "doe" (VStr "2024-01-14") VNone VNone.
Definition doe_old : doc := rabbit "D3" "doe" (VStr "2022-03-01") (VStr "B1") VNone.

(** A rabbit with no usable date of birth. *)
Definition doe_no_dob : doc := rabbit "D4" "doe" (VStr "n/a") VNone VNone.

(** [B1] is the sire of [D3]; [B0] is the sire of [B1]. *)
Definition buck_B0 : doc := rabbit "B0" "buck" (VStr "2020-05-01") VNone VNone.
Definition buck_B1 : doc := rabbit "B1" "buck" (VStr "2021-05-01") (VStr "B0") VNone.
Definition buck_B2 : doc := rabbit "B2" "buck" (VStr "2022-05-01") VNone VNone.
Definition buck_young : doc := rabbit "B3" "buck" (VDate (today - 10)) VNone VNone.

Definition herd : list doc :=
  [doe_154; doe_153; doe_old; buck_young; buck_B1; buck_B0; buck_B2].

(** [D3] bred 14 days ago, [D1] bred 13 days ago. *)
Definition bred_14 : doc := breeding "D3" "B2" (VDate (today - 14)).
Definition bred_13 : doc := breeding "D1" "B2" (VStr "2024-06-02").

(** Started five days ago with no end date; ended yesterday; a start
    date and an end date that are not dates. *)
Definition med_open : doc := schedule (VDate (today - 5)) VNone.
Definition med_ended : doc := schedule (VStr "2024-06-01") (VDate (today - 1)).
Definition med_bad_start : doc := schedule (VStr "next week") VNone.
Definition med_bad_end : doc := schedule (VStr "2024-06-01") (VStr "someday").

End Example.

(** ** List endpoints

    The record store ([database.get_documents]) is not part of the
    repository's sources: the list endpoints are parameterised by it.  Its
    arguments are the collection name, the equality filter and the result
    cap. *)

(** [model_cls.__name__.lower()], from the name of the schema class, an
    ASCII identifier. *)
Definition collection_name (model_cls : string) : string :=
  ascii_lower model_cls.

(** [if x: filt[k] = x] for an optional query parameter [x]. *)
Definition set_if (k : string) (x : option string) (filt : gmap string value)
  : gmap string value :=
  match x with
  | Some s => if String.eqb s "" then filt else <[k := VStr s]> filt
  | None => filt
  end.

Section Listing.
Context {rt : Runtime}.
Variable get_documents : string -> gmap string value -> option Z -> list doc.

(** [GET /rabbits]. *)
Definition list_rabbits (tag sex status : option string) (limit : option Z)
  : list doc :=
  let filt := set_if "status" status (set_if "sex" sex (set_if "tag" tag ∅)) in
  let docs := get_documents (collection_name "Rabbit") filt limit in
  to_dict_list docs.

(** [GET /health]. *)
Definition list_health_records (rabbit_tag : option string)
    (limit : option Z) : list doc :=
  let filt := set_if "rabbit_tag" rabbit_tag ∅ in
  let docs := get_documents (collection_name "HealthRecord") filt limit in
  to_dict_list docs.

(** [GET /breedings]. *)
Definition list_breedings (doe_tag buck_tag outcome : option string)
    (limit : option Z) : list doc :=
  let filt :=
    set_if "outcome" outcome
      (set_if "buck_tag" buck_tag (set_if "doe_tag" doe_tag ∅)) in
  let docs := get_documents (collection_name "Breeding") filt limit in
  to_dict_list docs.

(** [GET /litters]: the kindling date enters the filter as a date, and only
    when it parses. *)
Definition list_litters (doe_tag kindling_date : option string)
    (limit : option Z) : list doc :=
  let filt := set_if "doe_tag" doe_tag ∅ in
  let kd := parse_date_safe kindling_date in
  let filt :=
    match kd with
    | Some d => <["kindling_date" := VDate d]> filt
    | None => filt
    end in
  let docs := get_documents (collection_name "Litter") filt limit in
  to_dict_list docs.

(** [GET /tasks]. *)
Definition list_tasks (status assigned_to : option string)
    (limit : option Z) : list doc :=
  let filt := set_if "assigned_to" assigned_to (set_if "status" status ∅) in
  let docs := get_documents (collection_name "Task") filt limit in
  to_dict_list docs.

(** [GET /medication] with its query to the store (lines 184-188), followed
    by the listing above. *)
Definition medication_endpoint (rabbit_tag : option string)
    (active_only : bool) (today : option string) (limit : option Z)
  : result (list doc) :=
  let filt := set_if "rabbit_tag" rabbit_tag ∅ in
  let docs := get_documents (collection_name "MedicationSchedule") filt limit in
  list_medication docs active_only today.

End Listing.

(** ** Further notions used by the properties *)

Section Notions.
Context {rt : Runtime}.

(** The runtime on another day. *)
Definition on_day (d : Z) : Runtime :=
  {| fromisoformat := fromisoformat;
     isoformat := isoformat;
     date_today := d |}.

(** The start date of the record makes line 193 raise. *)
Definition start_fails (r : doc) : bool :=
  match start_date_of r with
  | Raise _ => true
  | Ok _ => false
  end.

(** The record passes the test of line 200 on the day [today_date]. *)
Definition listed (today_date : Z) (r : doc) : bool :=
  match start_date_of r with
  | Ok sd => in_window today_date sd (end_date_of r)
  | Raise _ => false
  end.

(** [strict] asks at least as much as [loose] of ages and cooldown. *)
Definition stricter (strict loose : BreedingPlanInput) : Prop :=
  min_doe_age_days loose <= min_doe_age_days strict
  /\ min_buck_age_days loose <= min_buck_age_days strict
  /\ cooldown_days loose <= cooldown_days strict.

(** An optional query parameter with the empty text read as absent. *)
Definition nonblank (x : option string) : option string :=
  match x with
  | Some s => if String.eqb s "" then None else Some s
  | None => None
  end.

(** The document has no identifier, or a text as its identifier. *)
Definition id_is_text (r : doc) : Prop :=
  r !! "_id" = None \/ exists s, r !! "_id" = Some (VStr s).

(** The rabbit passes the base filter of one of the two sexes. *)
Definition is_candidate (r : doc) : bool :=
  is_active "doe" r || is_active "buck" r.

End Notions.

Module MoreExamples.

(** A sold doe, a doe whose status is null, and a doe with no recorded
    sex. *)
Definition doe_sold : doc :=
  <["status" := VStr "sold"]> (Example.rabbit "D5" "doe" VNone VNone VNone).
Definition doe_null_status : doc :=
  <["status" := VNone]> (Example.rabbit "D6" "doe" VNone VNone VNone).
Definition no_sex : doc := {[ "tag" := VStr "R7" ]}.

(** A document as the store returns it, with an identifier. *)
Definition stored : doc :=
  <["_id" := VDate 739000]> Example.doe_old.

(** The parameters with every threshold at 200 days. *)
Definition strict : BreedingPlanInput :=
  {| min_doe_age_days := 200; min_buck_age_days := 200; cooldown_days := 200 |}.

(** A schedule whose end date is before its start date. *)
Definition med_backwards : doc :=
  Example.schedule (VStr "2024-06-10") (VStr "2024-06-01").

(** A store that answers every query with the same two documents. *)
Definition store (name : string) (filt : gmap string value) (limit : option Z)
  : list doc :=
  [stored; Example.doe_154].

End MoreExamples.

(** * Properties *)

(** ** The planner loops against the specification *)

Section PlannerFacts.
Context {rt : Runtime}.
Implicit Types (params : BreedingPlanInput) (doe buck : doc).
Implicit Types (bucks does : list doc) (suggested : list pair).

Lemma eligible_buck_unfold params doe buck :
  eligible_buck params doe buck =
    negb (too_young (age_in_days buck) (min_buck_age_days params))
    && negb (py_eq (get buck "tag") (get doe "tag"))
    && negb (in_pair (get buck "tag") (get doe "sire_tag") (get doe "dam_tag"))
    && negb (in_pair (get doe "tag") (get buck "sire_tag") (get buck "dam_tag")).
Proof.
  unfold eligible_buck, closely_related.
  rewrite !negb_orb, !andb_assoc. reflexivity.
Qed.

Lemma scan_bucks_cons params doe buck bucks suggested :
  scan_bucks params doe (buck :: bucks) suggested =
    if eligible_buck params doe buck
    then suggested ++ [make_pair doe buck]
    else scan_bucks params doe bucks suggested.
Proof.
  rewrite eligible_buck_unfold. simpl.
  destruct (too_young _ _); [reflexivity|].
  destruct (py_eq _ _); [reflexivity|].
  destruct (in_pair (get buck "tag") _ _); [reflexivity|].
  destruct (in_pair (get doe "tag") _ _); reflexivity.
Qed.

Lemma scan_bucks_find params doe bucks suggested :
  scan_bucks params doe bucks suggested =
    suggested ++
    option_list (make_pair doe <$> List.find (eligible_buck params doe) bucks).
Proof.
  induction bucks as [|buck bucks IH].
  - simpl. symmetry. apply app_nil_r.
  - rewrite scan_bucks_cons. cbn [List.find].
    destruct (eligible_buck params doe buck); [reflexivity|apply IH].
Qed.

Lemma scan_does_cons params last_bred bucks doe does suggested :
  scan_does params last_bred bucks (doe :: does) suggested =
    scan_does params last_bred bucks does
      (suggested ++ option_list (suggestion params last_bred bucks doe)).
Proof.
  unfold suggestion, doe_ready. simpl.
  destruct (too_young _ _); simpl; [by rewrite app_nil_r|].
  destruct (in_cooldown _ _); simpl; [by rewrite app_nil_r|].
  by rewrite scan_bucks_find.
Qed.

Lemma scan_does_omap params last_bred bucks does suggested :
  scan_does params last_bred bucks does suggested =
    suggested ++ omap (suggestion params last_bred bucks) does.
Proof.
  revert suggested. induction does as [|doe does IH]; intros suggested.
  - simpl. symmetry. apply app_nil_r.
  - rewrite scan_does_cons, IH. cbn [omap list_omap].
    destruct (suggestion params last_bred bucks doe); simpl.
    + by rewrite <- app_assoc.
    + by rewrite app_nil_r.
Qed.

(** What [List.find] returns is the first element that passes. *)
Lemma find_first {A} (p : A -> bool) (l : list A) (x : A) :
  List.find p l = Some x ->
  exists before after,
    l = before ++ x :: after /\ p x = true
    /\ Forall (fun y => p y = false) before.
Proof.
  induction l as [|y l IH]; simpl; [discriminate|].
  destruct (p y) eqn:Hy.
  - intros [= ->]. exists (@nil A). exists l. split_and!; [reflexivity|assumption|constructor].
  - intros H. destruct (IH H) as (before & after & -> & Hx & Hb).
    exists (y :: before), after. split_and!; [reflexivity|assumption|].
    by constructor.
Qed.

Lemma find_skip {A} (p : A -> bool) (before after : list A) (x : A) :
  Forall (fun y => p y = false) before -> p x = true ->
  List.find p (before ++ x :: after) = Some x.
Proof.
  induction 1 as [|y before Hy _ IH]; simpl; intros Hx.
  - by rewrite Hx.
  - rewrite Hy. by apply IH.
Qed.

Lemma omap_length_le {A B} (f : A -> option B) (l : list A) :
  (length (omap f l) <= length l)%nat.
Proof.
  induction l as [|x l IH]; [reflexivity|].
  change (omap f (x :: l)) with
    (match f x with Some y => y :: omap f l | None => omap f l end).
  destruct (f x); simpl; lia.
Qed.

Lemma plan_pairs params rabbit_docs breeding_docs :
  suggested_pairs (breeding_plan params rabbit_docs breeding_docs) =
    omap (suggestion params
            (index_breedings (to_dict_list breeding_docs) ∅)
            (candidates "buck" rabbit_docs))
         (candidates "doe" rabbit_docs).
Proof. unfold breeding_plan, candidates. simpl. by rewrite scan_does_omap. Qed.

(** Every suggestion comes from a ready doe and a buck eligible for it. *)
Lemma suggestion_inv params last_bred bucks doe p :
  suggestion params last_bred bucks doe = Some p ->
  doe_ready params last_bred doe = true
  /\ exists before buck after,
       bucks = before ++ buck :: after /\ p = make_pair doe buck
       /\ eligible_buck params doe buck = true
       /\ Forall (fun b => eligible_buck params doe b = false) before.
Proof.
  unfold suggestion. destruct (doe_ready _ _ _); [|discriminate].
  destruct (List.find _ bucks) as [buck|] eqn:Hfind; [|discriminate].
  intros [= <-]. split; [reflexivity|].
  destruct (find_first _ _ _ Hfind) as (before & after & -> & Hok & Hbefore).
  by exists before, buck, after.
Qed.

End PlannerFacts.

(** ** The pair suggested for a doe *)

Section PairSelection.
Context {rt : Runtime}.

(** C1.  The planner suggests at most one pair per candidate doe, in the
    order of the does; that pair carries the tag of the doe and the tag of
    the first buck, in input order, that passes the age, same-tag and
    relatedness checks; and the bucks after it are not scanned: they have
    no influence on what the scan for that doe adds. *)
Theorem first_eligible_buck_per_doe
    (params : BreedingPlanInput) (rabbit_docs breeding_docs : list doc) :
  let does := candidates "doe" rabbit_docs in
  let bucks := candidates "buck" rabbit_docs in
  let last_bred := index_breedings (to_dict_list breeding_docs) ∅ in
  let pairs := suggested_pairs (breeding_plan params rabbit_docs breeding_docs) in
  pairs = omap (suggestion params last_bred bucks) does
  /\ (length pairs <= length does)%nat
  /\ (forall doe p,
        suggestion params last_bred bucks doe = Some p ->
        exists before buck after,
          bucks = before ++ buck :: after
          /\ p = {| doe_tag := get doe "tag";
                    buck_tag := get buck "tag";
                    reason := "Meets age and cooldown; not closely related";
                    expected_kindling := isoformat (date_today + 31) |}
          /\ eligible_buck params doe buck = true
          /\ Forall (fun b => eligible_buck params doe b = false) before)
  /\ (forall doe before buck after suggested,
        Forall (fun b => eligible_buck params doe b = false) before ->
        eligible_buck params doe buck = true ->
        scan_bucks params doe (before ++ buck :: after) suggested =
          suggested ++
          [{| doe_tag := get doe "tag";
              buck_tag := get buck "tag";
              reason := "Meets age and cooldown; not closely related";
              expected_kindling := isoformat (date_today + 31) |}]).
Proof.
  intros does bucks last_bred pairs.
  assert (Hpairs : pairs = omap (suggestion params last_bred bucks) does)
    by apply plan_pairs.
  split_and!.
  - exact Hpairs.
  - rewrite Hpairs. apply omap_length_le.
  - intros doe p Hp.
    destruct (suggestion_inv _ _ _ _ _ Hp)
      as (_ & before & buck & after & Hb & -> & Hok & Hbefore).
    by exists before, buck, after.
  - intros doe before buck after suggested Hbefore Hbuck.
    rewrite scan_bucks_find, (find_skip _ _ _ _ Hbefore Hbuck). reflexivity.
Qed.

(** C2.  A suggested pair comes from a candidate doe and a candidate buck
    whose tags differ and of which neither is the recorded sire or dam of
    the other; and these one-generation checks are the only relatedness
    exclusion: a buck of sufficient age that passes them is suggested,
    whatever the more distant ancestry. *)
Theorem relatedness_one_generation
    (params : BreedingPlanInput) (rabbit_docs breeding_docs : list doc) :
  (forall p,
     p ∈ suggested_pairs (breeding_plan params rabbit_docs breeding_docs) ->
     exists doe buck,
       doe ∈ candidates "doe" rabbit_docs
       /\ buck ∈ candidates "buck" rabbit_docs
       /\ p = make_pair doe buck
       /\ get buck "tag" <> get doe "tag"
       /\ get buck "tag" <> get doe "sire_tag"
       /\ get buck "tag" <> get doe "dam_tag"
       /\ get doe "tag" <> get buck "sire_tag"
       /\ get doe "tag" <> get buck "dam_tag")
  /\ (forall doe buck rest suggested,
        too_young (age_in_days buck) (min_buck_age_days params) = false ->
        get buck "tag" <> get doe "tag" ->
        get buck "tag" <> get doe "sire_tag" ->
        get buck "tag" <> get doe "dam_tag" ->
        get doe "tag" <> get buck "sire_tag" ->
        get doe "tag" <> get buck "dam_tag" ->
        scan_bucks params doe (buck :: rest) suggested =
          suggested ++ [make_pair doe buck]).
Proof.
  split.
  - intros p Hp. rewrite plan_pairs in Hp.
    apply list_elem_of_omap in Hp as (doe & Hdoe & Hs).
    apply suggestion_inv in Hs as (_ & before & buck & after & Hb & -> & Hok & _).
    exists doe, buck. split; [exact Hdoe|]. split.
    { rewrite Hb. apply elem_of_app. right. apply elem_of_cons. by left. }
    split; [reflexivity|].
    rewrite eligible_buck_unfold in Hok. unfold in_pair, py_eq in Hok.
    repeat (apply andb_prop in Hok as [Hok ?]).
    repeat match goal with
           | H : negb (_ || _) = true |- _ =>
               rewrite negb_orb in H; apply andb_prop in H as [? ?]
           | H : negb (bool_decide _) = true |- _ =>
               apply negb_true_iff, bool_decide_eq_false in H
           end.
    by split_and!.
  - intros doe buck rest suggested Hage H1 H2 H3 H4 H5.
    rewrite scan_bucks_cons, eligible_buck_unfold, Hage.
    unfold in_pair, py_eq.
    by rewrite !bool_decide_eq_false_2.
Qed.

End PairSelection.

(** ** Age and cooldown thresholds *)

Section Thresholds.
Context {rt : Runtime}.

Lemma scan_does_step params last_bred bucks doe rest suggested :
  scan_does params last_bred bucks (doe :: rest) suggested =
    if too_young (age_in_days doe) (min_doe_age_days params)
    then scan_does params last_bred bucks rest suggested
    else if in_cooldown (last_bred !! get doe "tag") (cooldown_days params)
    then scan_does params last_bred bucks rest suggested
    else scan_does params last_bred bucks rest
           (scan_bucks params doe bucks suggested).
Proof. reflexivity. Qed.

(** C3.  For a doe of known age, the age check keeps her when her age is
    exactly [min_doe_age_days] (the scan goes on to the cooldown check and
    the bucks) and skips her when she is one day younger. *)
Theorem doe_age_threshold_inclusive
    (params : BreedingPlanInput) (last_bred : gmap value Z)
    (bucks rest : list doc) (suggested : list pair) (doe : doc) (a : Z) :
  age_in_days doe = Some a ->
  (a = min_doe_age_days params ->
     too_young (age_in_days doe) (min_doe_age_days params) = false
     /\ scan_does params last_bred bucks (doe :: rest) suggested =
          scan_does params last_bred bucks rest
            (if in_cooldown (last_bred !! get doe "tag") (cooldown_days params)
             then suggested
             else scan_bucks params doe bucks suggested))
  /\ (a = min_doe_age_days params - 1 ->
     too_young (age_in_days doe) (min_doe_age_days params) = true
     /\ scan_does params last_bred bucks (doe :: rest) suggested =
          scan_does params last_bred bucks rest suggested).
Proof.
  intros Hage. rewrite scan_does_step, Hage. unfold too_young.
  split; intros ->.
  - rewrite Z.ltb_irrefl. split; [reflexivity|].
    by destruct (in_cooldown _ _).
  - assert ((min_doe_age_days params - 1 <? min_doe_age_days params) = true)
      as -> by (apply Z.ltb_lt; lia).
    by split.
Qed.

(** The index holds, for every doe tag, the most recent date among its
    breedings. *)
Lemma index_breedings_latest (breedings : list doc) (last_bred : gmap value Z)
    (k : value) :
  index_breedings breedings last_bred !! k =
    latest (last_bred !! k) (dates_bred k breedings).
Proof.
  revert last_bred. induction breedings as [|b rest IH]; intros last_bred.
  { reflexivity. }
  unfold dates_bred.
  change (omap ?f (b :: rest)) with
    (match f b with Some d => d :: omap f rest | None => omap f rest end).
  fold (dates_bred k rest). simpl.
  destruct (truthy (get b "doe_tag")) eqn:Hdoe; simpl; [|apply IH].
  assert (Hstep : forall d,
    (if match last_bred !! get b "doe_tag" with
        | Some old => old <? d
        | None => true
        end
     then index_breedings rest (<[get b "doe_tag" := d]> last_bred)
     else index_breedings rest last_bred) !! k =
    latest (last_bred !! k)
      (if bool_decide (get b "doe_tag" = k)
       then d :: dates_bred k rest
       else dates_bred k rest)).
  { intros d. case_bool_decide as Hk.
    - subst k. simpl.
      destruct (last_bred !! get b "doe_tag") as [old|] eqn:Hold; simpl.
      + destruct (Z.ltb_spec old d).
        * rewrite IH, lookup_insert_eq. f_equal. f_equal. lia.
        * rewrite IH, Hold. f_equal. f_equal. lia.
      + by rewrite IH, lookup_insert_eq.
    - destruct (match last_bred !! get b "doe_tag" with
                | Some old => old <? d
                | None => true
                end); rewrite IH; [|reflexivity].
      by rewrite lookup_insert_ne. }
  destruct (get b "date_bred") as [|s|d]; simpl.
  - rewrite IH. by case_bool_decide.
  - destruct (String.eqb s ""); simpl.
    + rewrite IH. by case_bool_decide.
    + destruct (fromisoformat s) as [d|].
      * rewrite Hstep. by case_bool_decide.
      * rewrite IH. by case_bool_decide.
  - rewrite Hstep. by case_bool_decide.
Qed.

(** The latest date is one of the dates and no date is after it. *)
Lemma latest_max (ds : list Z) (seen : option Z) :
  (seen = None -> ds = [] -> latest seen ds = None)
  /\ (forall m, latest seen ds = Some m ->
        (seen = Some m \/ m ∈ ds)
        /\ (forall d, d ∈ ds -> d <= m)
        /\ (forall old, seen = Some old -> old <= m)).
Proof.
  revert seen. induction ds as [|d ds IH]; intros seen; simpl.
  - split; [by intros -> _|]. intros m ->. split_and!.
    + by left.
    + intros d Hd. by apply elem_of_nil in Hd.
    + intros old [= ->]. lia.
  - split; [discriminate|]. intros m Hm.
    destruct (IH (Some (from_option (Z.max d) d seen))) as [_ IHm].
    destruct (IHm m Hm) as (Hin & Hle & Hseen).
    specialize (Hseen _ eq_refl).
    split_and!.
    + destruct Hin as [[= <-]|Hin].
      * destruct seen as [old|]; simpl.
        -- destruct (Z.max_spec d old) as [[_ ->]|[_ ->]].
           ++ by left.
           ++ right. apply elem_of_cons. by left.
        -- right. apply elem_of_cons. by left.
      * right. apply elem_of_cons. by right.
    + intros d' Hd'. apply elem_of_cons in Hd' as [->|Hd']; [|by apply Hle].
      destruct seen; simpl in Hseen; lia.
    + intros old ->. simpl in Hseen. lia.
Qed.

(** C4.  For a doe with a last-bred date, the cooldown check keeps her when
    she was bred exactly [cooldown_days] ago (only the age check can still
    skip her) and skips her when she was bred one day fewer ago. *)
Theorem cooldown_threshold_inclusive
    (params : BreedingPlanInput) (last_bred : gmap value Z)
    (bucks rest : list doc) (suggested : list pair) (doe : doc) (lb : Z) :
  last_bred !! get doe "tag" = Some lb ->
  (date_today - lb = cooldown_days params ->
     in_cooldown (last_bred !! get doe "tag") (cooldown_days params) = false
     /\ scan_does params last_bred bucks (doe :: rest) suggested =
          scan_does params last_bred bucks rest
            (if too_young (age_in_days doe) (min_doe_age_days params)
             then suggested
             else scan_bucks params doe bucks suggested))
  /\ (date_today - lb = cooldown_days params - 1 ->
     in_cooldown (last_bred !! get doe "tag") (cooldown_days params) = true
     /\ scan_does params last_bred bucks (doe :: rest) suggested =
          scan_does params last_bred bucks rest suggested).
Proof.
  intros Hlb. rewrite scan_does_step, Hlb. unfold in_cooldown.
  split; intros ->.
  - rewrite Z.ltb_irrefl. split; [reflexivity|].
    by destruct (too_young _ _).
  - assert ((cooldown_days params - 1 <? cooldown_days params) = true)
      as -> by (apply Z.ltb_lt; lia).
    split; [reflexivity|]. by destruct (too_young _ _).
Qed.

Lemma age_unknown (r : doc) : dob_unknown r -> age_in_days r = None.
Proof.
  unfold dob_unknown, age_in_days.
  destruct (get r "dob") as [|s|d]; simpl; [reflexivity| |contradiction].
  intros [->|Hs]; [reflexivity|].
  rewrite Hs. by destruct (negb (String.eqb s "")).
Qed.

(** C6.  A rabbit whose date of birth is missing or does not parse has no
    age, and neither age check excludes it: as a doe the scan goes on to
    her cooldown check, as a buck to the relatedness checks, whatever the
    minimum ages are. *)
Theorem unknown_age_never_excluded
    (params : BreedingPlanInput) (r : doc) :
  dob_unknown r ->
  age_in_days r = None
  /\ too_young (age_in_days r) (min_doe_age_days params) = false
  /\ too_young (age_in_days r) (min_buck_age_days params) = false
  /\ (forall last_bred bucks rest suggested,
        scan_does params last_bred bucks (r :: rest) suggested =
          scan_does params last_bred bucks rest
            (if in_cooldown (last_bred !! get r "tag") (cooldown_days params)
             then suggested
             else scan_bucks params r bucks suggested))
  /\ (forall doe rest suggested,
        scan_bucks params doe (r :: rest) suggested =
          if closely_related doe r
          then scan_bucks params doe rest suggested
          else suggested ++ [make_pair doe r]).
Proof.
  intros Hr. pose proof (age_unknown r Hr) as Hage.
  split_and!.
  - exact Hage.
  - by rewrite Hage.
  - by rewrite Hage.
  - intros. rewrite scan_does_step, Hage. simpl. by destruct (in_cooldown _ _).
  - intros. rewrite scan_bucks_cons. unfold eligible_buck.
    rewrite Hage. simpl. by destruct (closely_related doe r).
Qed.

End Thresholds.

(** ** The active window of a medication schedule *)

Section ActiveWindow.
Context {rt : Runtime}.

Lemma start_date_well_dated (r : doc) :
  well_dated r -> start_date_of r = Ok (field_date (get r "start_date")).
Proof.
  intros (Hstart & _ & Hparse). unfold start_date_of.
  destruct (get r "start_date") as [|s|d] eqn:Hget; simpl in *.
  - reflexivity.
  - destruct (String.eqb_spec s "") as [->|Hne]; simpl; [reflexivity|].
    destruct (Hparse s eq_refl Hne) as [d ->]. reflexivity.
  - by rewrite Hstart.
Qed.

Lemma end_date_well_dated (r : doc) :
  well_dated r -> end_date_of r = field_date (get r "end_date").
Proof.
  intros (_ & Hend & _). unfold end_date_of.
  destruct (get r "end_date") as [|s|d]; simpl in *.
  - reflexivity.
  - by destruct (String.eqb s "").
  - exact Hend.
Qed.

Lemma in_window_active_on (today_date : Z) (r : doc) :
  in_window today_date (field_date (get r "start_date"))
    (field_date (get r "end_date")) = active_on today_date r.
Proof.
  unfold in_window, active_on.
  destruct (field_date (get r "start_date")); [|reflexivity].
  by destruct (field_date (get r "end_date")).
Qed.

Lemma active_loop_filter (today_date : Z) (records active : list doc) :
  Forall well_dated records ->
  active_loop today_date records active =
    Ok (active ++ List.filter (active_on today_date) records).
Proof.
  intros Hwf. revert active.
  induction Hwf as [|r records Hr _ IH]; intros active; simpl.
  - by rewrite app_nil_r.
  - rewrite (start_date_well_dated r Hr), (end_date_well_dated r Hr).
    rewrite in_window_active_on.
    destruct (active_on today_date r); rewrite IH; [|reflexivity].
    by rewrite <- app_assoc.
Qed.

(** A start date that does not parse makes the listing raise, wherever the
    record stands in the list. *)
Lemma active_loop_raises (today_date : Z) (records active : list doc)
    (r : doc) (s : string) :
  r ∈ records -> get r "start_date" = VStr s -> s <> "" ->
  fromisoformat s = None ->
  active_loop today_date records active = Raise ValueError.
Proof.
  intros Hin Hget Hne Hs. revert active.
  induction records as [|r' records IH]; intros active.
  - by apply elem_of_nil in Hin.
  - simpl. destruct (start_date_of r') as [sd|[]] eqn:Hsd; [|reflexivity].
    apply elem_of_cons in Hin as [<-|Hin].
    + unfold start_date_of in Hsd. rewrite Hget in Hsd. simpl in Hsd.
      apply String.eqb_neq in Hne. rewrite Hne, Hs in Hsd. discriminate.
    + destruct (in_window _ _ _); by apply IH.
Qed.

(** On schedules whose dates are dates, the listing with [active_only]
    returns exactly the records with [start_date <= today] and with no
    end date or [today <= end_date], in their order; so a schedule started
    five days ago with no end date is returned and one that ended
    yesterday is not. *)
Theorem active_only_window (docs : list doc) (today : option string) :
  let records := to_dict_list docs in
  let today_date := default date_today (parse_date_safe today) in
  Forall well_dated records ->
  list_medication docs true today =
    Ok (List.filter (active_on today_date) records)
  /\ (forall r,
        r ∈ records ->
        field_date (get r "start_date") = Some (today_date - 5) ->
        field_date (get r "end_date") = None ->
        exists active, list_medication docs true today = Ok active
                       /\ r ∈ active)
  /\ (forall r,
        field_date (get r "end_date") = Some (today_date - 1) ->
        exists active, list_medication docs true today = Ok active
                       /\ r ∉ active).
Proof.
  intros records today_date Hwf.
  assert (Hlist : list_medication docs true today =
                    Ok (List.filter (active_on today_date) records)).
  { unfold list_medication. simpl. by rewrite active_loop_filter. }
  split_and!.
  - exact Hlist.
  - intros r Hin Hsd Hed. eexists. split; [exact Hlist|].
    apply list_elem_of_In, filter_In. split; [by apply list_elem_of_In|].
    unfold active_on. rewrite Hsd, Hed, andb_true_r. apply Z.leb_le. lia.
  - intros r Hed. eexists. split; [exact Hlist|].
    intros Hin. apply list_elem_of_In, filter_In in Hin as [_ Hact].
    unfold active_on in Hact. rewrite Hed in Hact.
    destruct (field_date (get r "start_date")); [|discriminate].
    apply andb_prop in Hact as [_ Hle]. apply Z.leb_le in Hle. lia.
Qed.

End ActiveWindow.

(** C5.  The listing with [active_only] does not swallow every date that
    fails to parse: a start date that is not a date makes it raise
    [ValueError] (line 193 parses it outside any [try]), while an end date
    that is not a date is taken as absent (lines 196-199). *)
Theorem unparseable_start_date_raises :
  list_medication (rt := Example.rt)
    [Example.med_open; Example.med_bad_start] true None = Raise ValueError
  /\ list_medication (rt := Example.rt)
       [Example.med_bad_end] true None = Ok [Example.med_bad_end].
Proof.
  split;
    match goal with
    | |- ?P => apply (bool_decide_eq_true_1 P); vm_compute; reflexivity
    end.
Qed.

(** ** Kindling date, task stubs and summary *)

Section PlanOutput.
Context {rt : Runtime}.

Lemma omap_length_lt {A B} (f : A -> option B) (l : list A) (x : A) :
  x ∈ l -> f x = None -> (length (omap f l) < length l)%nat.
Proof.
  intros Hin Hx. induction l as [|y l IH]; [by apply elem_of_nil in Hin|].
  change (omap f (y :: l)) with
    (match f y with Some z => z :: omap f l | None => omap f l end).
  pose proof (omap_length_le f l) as Hle.
  apply elem_of_cons in Hin as [<-|Hin].
  - rewrite Hx. simpl. lia.
  - specialize (IH Hin). destruct (f y); simpl; lia.
Qed.

Lemma suggested_from_candidates params rabbit_docs breeding_docs p :
  p ∈ suggested_pairs (breeding_plan params rabbit_docs breeding_docs) ->
  exists doe buck,
    doe ∈ candidates "doe" rabbit_docs
    /\ buck ∈ candidates "buck" rabbit_docs
    /\ p = make_pair doe buck.
Proof.
  rewrite plan_pairs. intros Hp.
  apply list_elem_of_omap in Hp as (doe & Hdoe & Hs).
  apply suggestion_inv in Hs as (_ & before & buck & after & Hb & -> & _).
  exists doe, buck. split_and!; [assumption| |reflexivity].
  rewrite Hb. apply elem_of_app. right. apply elem_of_cons. by left.
Qed.

(** C9.  Every suggested pair carries the tags of a candidate doe and a
    candidate buck and the expected kindling date [today + 31] days; the
    tasks are the pairs' stubs, one per pair and in the same order, each
    with the title "Breed {doe} to {buck}", due today, assigned to
    "breeding", tagged to the doe, in status "todo", and with the expected
    kindling date at the end of its notes. *)
Theorem kindling_date_and_task_stubs
    (params : BreedingPlanInput) (rabbit_docs breeding_docs : list doc) :
  let res := breeding_plan params rabbit_docs breeding_docs in
  Forall (fun p =>
            expected_kindling p = isoformat (date_today + 31)
            /\ exists doe buck,
                 doe ∈ candidates "doe" rabbit_docs
                 /\ buck ∈ candidates "buck" rabbit_docs
                 /\ doe_tag p = get doe "tag"
                 /\ buck_tag p = get buck "tag")
         (suggested_pairs res)
  /\ Forall2 (fun p t =>
                title t = "Breed " +:+ str (doe_tag p) +:+ " to "
                          +:+ str (buck_tag p)
                /\ due_date t = isoformat date_today
                /\ assigned_to t = "breeding"
                /\ rabbit_tag t = doe_tag p
                /\ status t = "todo"
                /\ notes t = "Expected kindling "
                             +:+ isoformat (date_today + 31))
             (suggested_pairs res) (tasks res).
Proof.
  intros res.
  assert (Hpairs : Forall (fun p =>
            expected_kindling p = isoformat (date_today + 31)
            /\ exists doe buck,
                 doe ∈ candidates "doe" rabbit_docs
                 /\ buck ∈ candidates "buck" rabbit_docs
                 /\ doe_tag p = get doe "tag"
                 /\ buck_tag p = get buck "tag") (suggested_pairs res)).
  { apply Forall_forall. intros p Hp.
    apply suggested_from_candidates in Hp as (doe & buck & Hd & Hb & ->).
    split; [reflexivity|]. by exists doe, buck. }
  split; [exact Hpairs|].
  change (tasks res) with (map make_task (suggested_pairs res)).
  induction Hpairs as [|p pairs [Hk _] _ IH]; simpl; constructor; [|exact IH].
  unfold make_task. simpl. rewrite Hk. by split_and!.
Qed.

(** C10.  The summary counts the rabbits that pass the base filter on sex
    and status, whatever the parameters and the breeding history are, so a
    candidate doe that the age or cooldown check skips is counted although
    she gets no pair; and [suggested_count] is the number of pairs, which
    is the number of tasks. *)
Theorem summary_counts
    (params : BreedingPlanInput) (rabbit_docs breeding_docs : list doc) :
  let res := breeding_plan params rabbit_docs breeding_docs in
  let last_bred := index_breedings (to_dict_list breeding_docs) ∅ in
  eligible_does (plan_summary res) =
    length (List.filter (is_active "doe") (to_dict_list rabbit_docs))
  /\ eligible_bucks (plan_summary res) =
       length (List.filter (is_active "buck") (to_dict_list rabbit_docs))
  /\ suggested_count (plan_summary res) = length (suggested_pairs res)
  /\ length (suggested_pairs res) = length (tasks res)
  /\ (forall params' breeding_docs',
        let res' := breeding_plan params' rabbit_docs breeding_docs' in
        eligible_does (plan_summary res') = eligible_does (plan_summary res)
        /\ eligible_bucks (plan_summary res') = eligible_bucks (plan_summary res))
  /\ (forall doe,
        doe ∈ candidates "doe" rabbit_docs ->
        too_young (age_in_days doe) (min_doe_age_days params) = true
        \/ in_cooldown (last_bred !! get doe "tag") (cooldown_days params) = true ->
        (suggested_count (plan_summary res) < eligible_does (plan_summary res))%nat).
Proof.
  intros res last_bred. split_and!; try reflexivity.
  - unfold res, breeding_plan. simpl. by rewrite length_map.
  - by intros params' breeding_docs'.
  - intros doe Hdoe Hskip.
    change (suggested_count (plan_summary res))
      with (length (suggested_pairs res)).
    change (eligible_does (plan_summary res))
      with (length (candidates "doe" rabbit_docs)).
    unfold res. rewrite plan_pairs.
    apply (omap_length_lt _ _ doe Hdoe).
    unfold suggestion, doe_ready. fold last_bred.
    destruct Hskip as [-> | ->]; [reflexivity|].
    by rewrite andb_false_r.
Qed.

End PlanOutput.

(** ** Overall severity of the symptom checker *)

Section Severity.
Context {rt : Runtime} {tx : PyText}.

Lemma match_rules_filter (symptoms : gset string) (rs : list rule)
    (findings : list finding) :
  match_rules symptoms rs findings =
    findings ++ map finding_of (List.filter (matches symptoms) rs).
Proof.
  revert findings. induction rs as [|r rs IH]; intros findings; simpl.
  - by rewrite app_nil_r.
  - fold (matches symptoms r). fold (finding_of r).
    destruct (matches symptoms r); rewrite IH; [|reflexivity].
    by rewrite <- app_assoc.
Qed.

Lemma rules_severity :
  Forall (fun r => rule_severity r = "low" \/ rule_severity r = "medium"
                   \/ rule_severity r = "high") rules.
Proof.
  unfold rules.
  repeat (apply List.Forall_cons; [simpl; auto|]). apply List.Forall_nil.
Qed.

Lemma findings_severity (symptoms : gset string) (f : finding) :
  f ∈ match_rules symptoms rules [] ->
  severity f = "low" \/ severity f = "medium" \/ severity f = "high".
Proof.
  rewrite match_rules_filter, app_nil_l. intros Hf.
  apply list_elem_of_fmap in Hf as (r & -> & Hr).
  apply list_elem_of_In, filter_In in Hr as [Hr _].
  pose proof rules_severity as Hall. rewrite Forall_forall in Hall.
  apply Hall. by apply list_elem_of_In.
Qed.

Lemma existsb_severity (s : string) (findings : list finding) :
  existsb (fun f => String.eqb (severity f) s) findings = true <->
  exists f, f ∈ findings /\ severity f = s.
Proof.
  rewrite existsb_exists. split.
  - intros (f & Hin & Heq). exists f. split; [by apply list_elem_of_In|].
    by apply String.eqb_eq.
  - intros (f & Hin & Heq). exists f. split; [by apply list_elem_of_In|].
    by apply String.eqb_eq.
Qed.

Lemma overall_highest (findings : list finding) :
  Forall (fun f => severity f = "low" \/ severity f = "medium"
                   \/ severity f = "high") findings ->
  (forall f, f ∈ findings ->
     (severity_rank (severity f) <= severity_rank (overall findings))%nat)
  /\ (findings <> [] ->
      exists f, f ∈ findings /\ severity f = overall findings)
  /\ (findings = [] -> overall findings = "low").
Proof.
  intros Hsev. rewrite Forall_forall in Hsev. unfold overall.
  destruct (existsb (fun f => String.eqb (severity f) "high") findings)
    eqn:Hhigh.
  { split_and!.
    - intros f Hf.
      destruct (Hsev f Hf) as [-> | [-> | ->]]; unfold severity_rank; simpl; lia.
    - intros _. by apply existsb_severity.
    - intros ->. discriminate. }
  destruct (existsb (fun f => String.eqb (severity f) "medium") findings)
    eqn:Hmedium.
  { split_and!.
    - intros f Hf.
      destruct (Hsev f Hf) as [-> | [-> | Hf']];
        unfold severity_rank; simpl; try lia.
      assert (existsb (fun f => String.eqb (severity f) "high") findings = true)
        as Habs by (apply existsb_severity; eauto).
      congruence.
    - intros _. by apply existsb_severity.
    - intros ->. discriminate. }
  assert (Hlow : forall f, f ∈ findings -> severity f = "low").
  { intros f Hf. destruct (Hsev f Hf) as [H | [H | H]]; [exact H| |].
    - assert (existsb (fun f => String.eqb (severity f) "medium") findings = true)
        as Habs by (apply existsb_severity; eauto).
      congruence.
    - assert (existsb (fun f => String.eqb (severity f) "high") findings = true)
        as Habs by (apply existsb_severity; eauto).
      congruence. }
  split_and!.
  - intros f Hf. rewrite (Hlow f Hf). unfold severity_rank. simpl. lia.
  - destruct findings as [|f findings]; [done|]. intros _.
    exists f. split; [apply elem_of_cons; by left|].
    apply Hlow. apply elem_of_cons. by left.
  - reflexivity.
Qed.

(** Plain ASCII phrases, without capitals and surrounding blanks, are
    their own normal form on a runtime that treats ASCII as ASCII. *)
Lemma normalized_plain (symptoms : list string) :
  ascii_faithful tx ->
  Forall (fun s => is_ascii s = true /\ ascii_strip s = s
                   /\ ascii_lower s = s /\ s <> "") symptoms ->
  normalized symptoms = symptoms.
Proof.
  intros Hascii Hplain. unfold normalized.
  induction Hplain as [|s l (Hs & Hstrip & Hlower & Hne) _ IH]; [reflexivity|].
  destruct (Hascii s Hs) as [Hst Hlo]. cbn [List.filter].
  rewrite Hst, Hstrip. apply String.eqb_neq in Hne. rewrite Hne.
  cbn [negb map]. rewrite Hst, Hstrip, Hlo, Hlower. by rewrite IH.
Qed.

(** C8.  The findings of the symptom checker are the matched rules, in
    rule order, and the overall severity is their highest severity with
    high > medium > low, and "low" when no rule matches.  In particular,
    on a runtime whose [strip] and [lower] treat ASCII text as Python
    does, "diarrhea" alone gives the single Enteritis/Diarrhea finding and
    "medium", and "bloat" with "head tilt" gives two findings and "high";
    and symptoms that no rule recognises give no finding and "low". *)
Theorem overall_severity_is_highest
    (payload : SymptomCheck) (hist_docs : list doc) :
  let res := symptom_check payload hist_docs in
  let findings := probable_conditions res in
  findings =
    map finding_of
        (List.filter (matches (normalize (sc_symptoms payload))) rules)
  /\ (forall f, f ∈ findings ->
        (severity_rank (severity f) <= severity_rank (overall_severity res))%nat)
  /\ (findings <> [] ->
      exists f, f ∈ findings /\ severity f = overall_severity res)
  /\ (findings = [] -> overall_severity res = "low")
  /\ (Forall (fun r => matches (normalize (sc_symptoms payload)) r = false)
             rules ->
      findings = [] /\ overall_severity res = "low")
  /\ (ascii_faithful tx ->
      let one := symptom_check
                   {| sc_rabbit_tag := sc_rabbit_tag payload;
                      sc_symptoms := ["diarrhea"] |} hist_docs in
      (exists f, probable_conditions one = [f]
                 /\ condition f = "Enteritis/Diarrhea"
                 /\ severity f = "medium")
      /\ overall_severity one = "medium")
  /\ (ascii_faithful tx ->
      let two := symptom_check
                   {| sc_rabbit_tag := sc_rabbit_tag payload;
                      sc_symptoms := ["bloat"; "head tilt"] |} hist_docs in
      length (probable_conditions two) = 2%nat
      /\ overall_severity two = "high")
  /\ (ascii_faithful tx ->
      let none := symptom_check
                    {| sc_rabbit_tag := sc_rabbit_tag payload;
                       sc_symptoms := ["hiccups"] |} hist_docs in
      probable_conditions none = [] /\ overall_severity none = "low").
Proof.
  intros res findings.
  assert (Hfind : findings =
            map finding_of
              (List.filter (matches (normalize (sc_symptoms payload))) rules)).
  { change findings with (match_rules (normalize (sc_symptoms payload)) rules []).
    by rewrite match_rules_filter, app_nil_l. }
  assert (Hsev : Forall (fun f => severity f = "low" \/ severity f = "medium"
                                  \/ severity f = "high") findings).
  { apply Forall_forall. intros f Hf. by apply findings_severity in Hf. }
  destruct (overall_highest findings Hsev) as (Hle & Hmax & Hnil).
  change (overall_severity res) with (overall findings).
  assert (Hphrases : ascii_faithful tx -> forall l,
            Forall (fun s => is_ascii s = true /\ ascii_strip s = s
                             /\ ascii_lower s = s /\ s <> "") l ->
            forall p h,
              probable_conditions
                (symptom_check {| sc_rabbit_tag := p; sc_symptoms := l |} h)
              = match_rules (list_to_set l) rules []).
  { intros Hascii l Hl p h.
    change (probable_conditions
              (symptom_check {| sc_rabbit_tag := p; sc_symptoms := l |} h))
      with (match_rules (list_to_set (normalized l)) rules []).
    by rewrite (normalized_plain l Hascii Hl). }
  split_and!.
  - exact Hfind.
  - exact Hle.
  - exact Hmax.
  - exact Hnil.
  - intros Hnone. assert (findings = []) as Hempty.
    { rewrite Hfind. clear -Hnone.
      induction Hnone as [|r rs Hr _ IH]; simpl; [reflexivity|].
      by rewrite Hr. }
    split; [exact Hempty|]. by apply Hnil.
  - intros Hascii one.
    assert (Hone : probable_conditions one
                   = match_rules (list_to_set ["diarrhea"]) rules []).
    { apply (Hphrases Hascii). repeat constructor; discriminate. }
    change (overall_severity one) with (overall (probable_conditions one)).
    rewrite Hone. split; [|vm_compute; reflexivity].
    exists (finding_of (hd (Build_rule ∅ "" "" [] []) rules)).
    split_and!; [vm_compute|simpl|simpl]; reflexivity.
  - intros Hascii two.
    assert (Htwo : probable_conditions two
                   = match_rules (list_to_set ["bloat"; "head tilt"]) rules []).
    { apply (Hphrases Hascii). repeat constructor; discriminate. }
    change (overall_severity two) with (overall (probable_conditions two)).
    rewrite Htwo. split; vm_compute; reflexivity.
  - intros Hascii none.
    assert (Hnone : probable_conditions none
                    = match_rules (list_to_set ["hiccups"]) rules []).
    { apply (Hphrases Hascii). repeat constructor; discriminate. }
    change (overall_severity none) with (overall (probable_conditions none)).
    rewrite Hnone. split; vm_compute; reflexivity.
Qed.

End Severity.

(** ** The theorems on the documents of the examples *)

(** Closed decidable facts about the example documents are settled by
    evaluating their decision procedure. *)
Ltac by_compute :=
  match goal with
  | |- ?P => apply (bool_decide_eq_true_1 P); vm_compute; reflexivity
  end.

(** Replaces the field read in [H] by its value [v]. *)
Ltac read_field H v :=
  match type of H with
  | get ?r ?k = _ => replace (get r k) with v in H by by_compute
  end.

(** C7.  The listing with [active_only] does not always return exactly the
    records of the window: the schedule started five days ago with no end
    date has [start_date <= today] and no end date, but listed together
    with a schedule whose start date is not a date it is not returned,
    since the listing raises [ValueError] at line 193 and returns no list
    at all. *)
Theorem active_only_loses_active_record :
  let docs := [Example.med_open; Example.med_bad_start] in
  field_date (rt := Example.rt) (get Example.med_open "start_date")
    = Some (Example.today - 5)
  /\ get Example.med_open "end_date" = VNone
  /\ active_on (rt := Example.rt) Example.today Example.med_open = true
  /\ list_medication (rt := Example.rt) docs true None = Raise ValueError
  /\ ~ (exists active,
          list_medication (rt := Example.rt) docs true None = Ok active
          /\ Example.med_open ∈ active).
Proof.
  intros docs.
  assert (Hraise : list_medication (rt := Example.rt) docs true None
                   = Raise ValueError) by by_compute.
  split_and!; [by_compute|by_compute|by_compute|exact Hraise|].
  intros (active & Hok & _). rewrite Hraise in Hok. discriminate Hok.
Qed.

(** On the herd of the examples only [D3] gets a pair: [D1] is in cooldown
    and [D2] is too young; her buck is [B0], the first one after the too
    young [B3] and her sire [B1], and [B2] behind it is not looked at. *)
Lemma first_eligible_buck_witness :
  suggested_pairs
    (breeding_plan (rt := Example.rt) Example.defaults Example.herd
       [Example.bred_14; Example.bred_13])
  = [{| doe_tag := VStr "D3";
        buck_tag := VStr "B0";
        reason := "Meets age and cooldown; not closely related";
        expected_kindling := "2024-07-16" |}]
  /\ scan_bucks (rt := Example.rt) Example.defaults Example.doe_old
       ([Example.buck_young; Example.buck_B1]
          ++ Example.buck_B0 :: [Example.buck_B2]) []
     = [{| doe_tag := VStr "D3";
           buck_tag := VStr "B0";
           reason := "Meets age and cooldown; not closely related";
           expected_kindling := "2024-07-16" |}].
Proof.
  pose proof (first_eligible_buck_per_doe (rt := Example.rt)
                Example.defaults Example.herd
                [Example.bred_14; Example.bred_13]) as H.
  cbv zeta in H. destruct H as (Hpairs & _ & _ & Hfirst).
  split.
  - rewrite Hpairs. by_compute.
  - rewrite Hfirst.
    + by_compute.
    + apply List.Forall_cons; [by_compute|].
      apply List.Forall_cons; [by_compute|].
      apply List.Forall_nil.
    + by_compute.
Defined.

(** The pair of [D3] and [B0] passes the one-generation checks, and [B0]
    is suggested for [D3] although he is the sire of her sire [B1]. *)
Lemma relatedness_one_generation_witness :
  (exists doe buck,
     doe ∈ candidates (rt := Example.rt) "doe" Example.herd
     /\ buck ∈ candidates (rt := Example.rt) "buck" Example.herd
     /\ make_pair (rt := Example.rt) Example.doe_old Example.buck_B0
        = make_pair (rt := Example.rt) doe buck
     /\ get buck "tag" <> get doe "tag"
     /\ get buck "tag" <> get doe "sire_tag"
     /\ get buck "tag" <> get doe "dam_tag"
     /\ get doe "tag" <> get buck "sire_tag"
     /\ get doe "tag" <> get buck "dam_tag")
  /\ get Example.doe_old "sire_tag" = get Example.buck_B1 "tag"
  /\ get Example.buck_B1 "sire_tag" = get Example.buck_B0 "tag"
  /\ scan_bucks (rt := Example.rt) Example.defaults Example.doe_old
       [Example.buck_B0; Example.buck_B2] []
     = [] ++ [make_pair (rt := Example.rt) Example.doe_old Example.buck_B0].
Proof.
  destruct (relatedness_one_generation (rt := Example.rt)
              Example.defaults Example.herd
              [Example.bred_14; Example.bred_13]) as [Hpair Hscan].
  split_and!.
  - apply Hpair. by_compute.
  - reflexivity.
  - reflexivity.
  - apply Hscan.
    + by_compute.
    + by_compute.
    + by_compute.
    + by_compute.
    + by_compute.
    + by_compute.
Defined.

(** With the default minimum of 154 days, the doe aged 154 days is kept by
    the age check and the doe aged 153 days is skipped. *)
Lemma doe_age_threshold_witness :
  (too_young (age_in_days (rt := Example.rt) Example.doe_154) 154 = false
   /\ scan_does (rt := Example.rt) Example.defaults ∅ [Example.buck_B2]
        [Example.doe_154] []
      = [make_pair (rt := Example.rt) Example.doe_154 Example.buck_B2])
  /\ (too_young (age_in_days (rt := Example.rt) Example.doe_153) 154 = true
      /\ scan_does (rt := Example.rt) Example.defaults ∅ [Example.buck_B2]
           [Example.doe_153] []
         = []).
Proof.
  split.
  - destruct (doe_age_threshold_inclusive (rt := Example.rt)
                Example.defaults ∅ [Example.buck_B2] [] []
                Example.doe_154 154) as [Hkeep _].
    { by_compute. }
    destruct Hkeep as [Hage Hscan]; [reflexivity|].
    split; [exact Hage|]. rewrite Hscan. by_compute.
  - destruct (doe_age_threshold_inclusive (rt := Example.rt)
                Example.defaults ∅ [Example.buck_B2] [] []
                Example.doe_153 153) as [_ Hskip].
    { by_compute. }
    destruct Hskip as [Hage Hscan]; [reflexivity|].
    split; [exact Hage|]. rewrite Hscan. reflexivity.
Defined.

(** With the default cooldown of 14 days, [D3], bred 14 days ago, is kept
    by the cooldown check and [D1], bred 13 days ago, is skipped. *)
Lemma cooldown_threshold_witness :
  let last_bred :=
    index_breedings (rt := Example.rt) [Example.bred_14; Example.bred_13] ∅ in
  in_cooldown (rt := Example.rt) (last_bred !! get Example.doe_old "tag") 14
    = false
  /\ in_cooldown (rt := Example.rt) (last_bred !! get Example.doe_154 "tag") 14
     = true.
Proof.
  intros last_bred. split.
  - destruct (cooldown_threshold_inclusive (rt := Example.rt)
                Example.defaults last_bred [] [] []
                Example.doe_old (Example.today - 14)) as [Hkeep _].
    { by_compute. }
    destruct Hkeep as [Hcool _]; [by_compute|]. exact Hcool.
  - destruct (cooldown_threshold_inclusive (rt := Example.rt)
                Example.defaults last_bred [] [] []
                Example.doe_154 (Example.today - 13)) as [_ Hskip].
    { by_compute. }
    destruct Hskip as [Hcool _]; [by_compute|]. exact Hcool.
Defined.

(** The doe whose date of birth reads "n/a" has no age and passes the
    age check of either role. *)
Lemma unknown_age_witness :
  age_in_days (rt := Example.rt) Example.doe_no_dob = None
  /\ too_young (age_in_days (rt := Example.rt) Example.doe_no_dob)
       (min_doe_age_days Example.defaults) = false
  /\ too_young (age_in_days (rt := Example.rt) Example.doe_no_dob)
       (min_buck_age_days Example.defaults) = false.
Proof.
  destruct (unknown_age_never_excluded (rt := Example.rt)
              Example.defaults Example.doe_no_dob) as (Hage & Hdoe & Hbuck & _).
  { unfold dob_unknown.
    replace (get Example.doe_no_dob "dob") with (VStr "n/a") by by_compute.
    right. by_compute. }
  by split_and!.
Defined.

Lemma example_schedules_well_dated :
  Forall (well_dated (rt := Example.rt))
    (to_dict_list (rt := Example.rt)
       [Example.med_open; Example.med_ended; Example.med_bad_end]).
Proof.
  apply List.Forall_cons.
  { split_and!.
    - replace (get _ "start_date") with (VDate (Example.today - 5))
        by by_compute.
      simpl. by_compute.
    - replace (get _ "end_date") with VNone by by_compute. exact I.
    - intros s H. read_field H (VDate (Example.today - 5)). discriminate H. }
  apply List.Forall_cons.
  { split_and!.
    - replace (get _ "start_date") with (VStr "2024-06-01") by by_compute.
      exact I.
    - replace (get _ "end_date") with (VDate (Example.today - 1))
        by by_compute.
      simpl. by_compute.
    - intros s H _. read_field H (VStr "2024-06-01").
      injection H as <-. exists 739038. by_compute. }
  apply List.Forall_cons; [|apply List.Forall_nil].
  split_and!.
  - replace (get _ "start_date") with (VStr "2024-06-01") by by_compute.
    exact I.
  - replace (get _ "end_date") with (VStr "someday") by by_compute.
    exact I.
  - intros s H _. read_field H (VStr "2024-06-01").
    injection H as <-. exists 739038. by_compute.
Defined.

(** Of the schedule started five days ago with no end date, the one that
    ended yesterday and the one whose end date is not a date, the first
    and the last are active today. *)
Lemma active_only_window_witness :
  list_medication (rt := Example.rt)
    [Example.med_open; Example.med_ended; Example.med_bad_end] true None
  = Ok [Example.med_open; Example.med_bad_end].
Proof.
  pose proof (active_only_window (rt := Example.rt)
                [Example.med_open; Example.med_ended; Example.med_bad_end]
                None) as H.
  cbv zeta in H.
  destruct (H example_schedules_well_dated) as [Hlist _].
  rewrite Hlist. by_compute.
Defined.

Lemma ascii_text_faithful : ascii_faithful ascii_text.
Proof. intros s _. split; reflexivity. Defined.

(** With the ASCII text functions, "Hiccups " and a blank symptom match no
    rule (no finding, severity "low"), and "diarrhea" gives "medium". *)
Lemma overall_severity_witness :
  (probable_conditions
     (symptom_check (rt := Example.rt) (tx := ascii_text)
        {| sc_rabbit_tag := None; sc_symptoms := ["Hiccups "; "  "] |} [])
   = []
   /\ overall_severity
        (symptom_check (rt := Example.rt) (tx := ascii_text)
           {| sc_rabbit_tag := None; sc_symptoms := ["Hiccups "; "  "] |} [])
      = "low")
  /\ overall_severity
       (symptom_check (rt := Example.rt) (tx := ascii_text)
          {| sc_rabbit_tag := None; sc_symptoms := ["diarrhea"] |} [])
     = "medium".
Proof.
  pose proof (overall_severity_is_highest (rt := Example.rt) (tx := ascii_text)
                {| sc_rabbit_tag := None; sc_symptoms := ["Hiccups "; "  "] |}
                []) as H.
  cbv zeta in H. destruct H as (_ & _ & _ & _ & Hnone & Hone & _).
  split.
  - apply Hnone. unfold rules.
    repeat (apply List.Forall_cons; [by_compute|]).
    apply List.Forall_nil.
  - apply (Hone ascii_text_faithful).
Defined.

(** On the herd of the examples the three does are counted as eligible
    although only one of them gets a pair: [D2] is too young. *)
Lemma summary_counts_witness :
  let res := breeding_plan (rt := Example.rt) Example.defaults Example.herd
               [Example.bred_14; Example.bred_13] in
  eligible_does (plan_summary res) = 3%nat
  /\ eligible_bucks (plan_summary res) = 4%nat
  /\ (suggested_count (plan_summary res) < eligible_does (plan_summary res))%nat.
Proof.
  intros res.
  pose proof (summary_counts (rt := Example.rt) Example.defaults Example.herd
                [Example.bred_14; Example.bred_13]) as H.
  cbv zeta in H. destruct H as (Hdoes & Hbucks & _ & _ & _ & Hskipped).
  split_and!.
  - unfold res. rewrite Hdoes. by_compute.
  - unfold res. rewrite Hbucks. by_compute.
  - apply (Hskipped Example.doe_153).
    + by_compute.
    + left. by_compute.
Defined.

(** The plan for the herd of the examples, on 2024-06-15. *)
Example plan_of_herd :
  breeding_plan (rt := Example.rt) Example.defaults Example.herd
    [Example.bred_14; Example.bred_13]
  = {| suggested_pairs :=
         [{| doe_tag := VStr "D3";
             buck_tag := VStr "B0";
             reason := "Meets age and cooldown; not closely related";
             expected_kindling := "2024-07-16" |}];
       tasks :=
         [{| title := "Breed D3 to B0";
             due_date := "2024-06-15";
             assigned_to := "breeding";
             rabbit_tag := VStr "D3";
             status := "todo";
             notes := "Expected kindling 2024-07-16" |}];
       plan_summary :=
         {| eligible_does := 3;
            eligible_bucks := 4;
            suggested_count := 1 |} |}.
Proof. vm_compute. reflexivity. Qed.

(** * Further properties of the code *)

(** ** Stringifying the identifiers *)

Section DictList.
Context {rt : Runtime}.

Lemma to_dict_list_cons (d : doc) (docs : list doc) :
  to_dict_list (d :: docs) =
    match d !! "_id" with
    | Some i => <["_id" := VStr (str i)]> d
    | None => d
    end :: to_dict_list docs.
Proof. reflexivity. Qed.

(** [to_dict_list] returns one document per input document, in order; each
    keeps every field but ["_id"] as it was, has an ["_id"] exactly when
    the input has one, and then holds its text. *)
Theorem to_dict_list_fields (docs : list doc) :
  length (to_dict_list docs) = length docs
  /\ Forall2 (fun d r =>
                (forall k, k <> "_id" -> r !! k = d !! k)
                /\ r !! "_id" = (fun i => VStr (str i)) <$> d !! "_id")
             docs (to_dict_list docs).
Proof.
  split; [apply length_map|].
  induction docs as [|d docs IH]; [constructor|].
  rewrite to_dict_list_cons. constructor; [|exact IH].
  destruct (d !! "_id") as [i|] eqn:Hid; simpl.
  - split; [|by rewrite lookup_insert_eq].
    intros k Hk. by rewrite lookup_insert_ne.
  - by split.
Qed.

Lemma to_dict_list_twice (docs : list doc) :
  to_dict_list (to_dict_list docs) = to_dict_list docs.
Proof.
  induction docs as [|d docs IH]; [reflexivity|].
  rewrite (to_dict_list_cons d), to_dict_list_cons, IH. f_equal.
  destruct (d !! "_id") as [i|] eqn:Hid.
  - rewrite lookup_insert_eq. simpl. apply insert_insert_eq.
  - by rewrite Hid.
Qed.

(** Stringifying twice is stringifying once; so documents that an endpoint
    listed can be fed to the medication listing and to the planner, which
    then answer as on the stored documents. *)
Theorem to_dict_list_idempotent
    (docs rabbit_docs breeding_docs : list doc)
    (params : BreedingPlanInput) (active_only : bool) (today : option string) :
  to_dict_list (to_dict_list docs) = to_dict_list docs
  /\ list_medication (to_dict_list docs) active_only today =
       list_medication docs active_only today
  /\ breeding_plan params (to_dict_list rabbit_docs)
       (to_dict_list breeding_docs) =
       breeding_plan params rabbit_docs breeding_docs.
Proof.
  split_and!.
  - apply to_dict_list_twice.
  - unfold list_medication. by rewrite to_dict_list_twice.
  - unfold breeding_plan. by rewrite !to_dict_list_twice.
Qed.

End DictList.

(** ** The medication listing on arbitrary records *)

Section MedicationListing.
Context {rt : Runtime}.

Lemma start_fails_iff (r : doc) :
  start_fails r = true <->
  truthy (get r "start_date") = true
  /\ fromisoformat (str (get r "start_date")) = None.
Proof.
  unfold start_fails, start_date_of.
  destruct (truthy (get r "start_date")); [|by split; [|intros []]].
  destruct (fromisoformat (str (get r "start_date"))); split; try done.
  by intros [].
Qed.

Lemma active_loop_ok (today_date : Z) (records active : list doc) :
  Forall (fun r => start_fails r = false) records ->
  active_loop today_date records active =
    Ok (active ++ List.filter (listed today_date) records).
Proof.
  intros Hok. revert active.
  induction Hok as [|r records Hr _ IH]; intros active; simpl.
  - by rewrite app_nil_r.
  - unfold listed, start_fails in *.
    destruct (start_date_of r) as [sd|e]; [|discriminate].
    destruct (in_window today_date sd (end_date_of r)); rewrite IH.
    + by rewrite <- app_assoc.
    + reflexivity.
Qed.

Lemma active_loop_fails (today_date : Z) (records active : list doc) :
  Exists (fun r => start_fails r = true) records ->
  active_loop today_date records active = Raise ValueError.
Proof.
  intros Hbad. revert active.
  induction records as [|r records IH]; intros active.
  - by apply Exists_nil in Hbad.
  - simpl. unfold start_fails in Hbad.
    destruct (start_date_of r) as [sd|[]] eqn:Hsd; [|reflexivity].
    apply Exists_cons in Hbad as [Hr|Hbad].
    + rewrite Hsd in Hr. discriminate.
    + destruct (in_window _ _ _); by apply IH.
Qed.

Lemma all_or_some_fails (records : list doc) :
  Forall (fun r => start_fails r = false) records
  \/ Exists (fun r => start_fails r = true) records.
Proof.
  induction records as [|r records [IH|IH]].
  - left. constructor.
  - destruct (start_fails r) eqn:Hr.
    + right. by apply Exists_cons_hd.
    + left. by constructor.
  - right. by apply Exists_cons_tl.
Qed.

Lemma listing_ok_inv (docs : list doc) (today : option string)
    (active : list doc) :
  list_medication docs true today = Ok active ->
  active = List.filter
             (listed (default date_today (parse_date_safe today)))
             (to_dict_list docs).
Proof.
  unfold list_medication. intros Hok.
  destruct (all_or_some_fails (to_dict_list docs)) as [Hall|Hsome].
  - rewrite (active_loop_ok _ _ _ Hall) in Hok. by injection Hok as <-.
  - rewrite (active_loop_fails _ _ _ Hsome) in Hok. discriminate.
Qed.

(** With [active_only], the listing raises exactly when some record has a
    non-empty start date that does not parse; otherwise it returns, in
    their order, the records that pass the window test.  Without
    [active_only] it returns every record and parses no date. *)
Theorem listing_raises_iff (docs : list doc) (today : option string) :
  let records := to_dict_list docs in
  let today_date := default date_today (parse_date_safe today) in
  (list_medication docs true today = Raise ValueError <->
   exists r, r ∈ records
             /\ truthy (get r "start_date") = true
             /\ fromisoformat (str (get r "start_date")) = None)
  /\ (list_medication docs true today <> Raise ValueError ->
      list_medication docs true today =
        Ok (List.filter (listed today_date) records))
  /\ list_medication docs false today = Ok records.
Proof.
  intros records today_date.
  assert (Hex : Exists (fun r => start_fails r = true) records <->
                exists r, r ∈ records
                          /\ truthy (get r "start_date") = true
                          /\ fromisoformat (str (get r "start_date")) = None).
  { rewrite Exists_exists. split; intros (r & Hin & Hr); exists r.
    - by apply start_fails_iff in Hr.
    - split; [exact Hin|]. by apply start_fails_iff. }
  split_and!.
  - rewrite <- Hex. split.
    + intros Hraise.
      destruct (all_or_some_fails records) as [Hall|Hsome]; [|exact Hsome].
      unfold list_medication in Hraise. fold records in Hraise.
      rewrite (active_loop_ok _ _ _ Hall) in Hraise. discriminate.
    + intros Hsome. unfold list_medication. by apply active_loop_fails.
  - intros Hno.
    destruct (list_medication docs true today) as [active|[]] eqn:Hres.
    + f_equal. by apply listing_ok_inv.
    + by destruct Hno.
  - reflexivity.
Qed.

(** A [today] parameter that is absent, empty or not a date leaves the
    clock in charge; one that parses to a day makes the listing answer as
    it would on that day. *)
Theorem today_parameter_overrides_clock
    (docs : list doc) (active_only : bool) (today : option string) :
  (parse_date_safe today = None ->
   list_medication docs active_only today =
     list_medication docs active_only None)
  /\ (forall d, parse_date_safe today = Some d ->
        list_medication docs active_only today =
          list_medication (rt := on_day d) docs active_only None).
Proof.
  split.
  - intros Hnone. unfold list_medication. by rewrite Hnone.
  - intros d Hd. unfold list_medication. rewrite Hd. reflexivity.
Qed.

(** A record with no start date, or whose end date is before its start
    date, is never listed as active, whatever the day is. *)
Theorem never_active
    (docs : list doc) (today : option string) (active : list doc) (r : doc) :
  list_medication docs true today = Ok active ->
  truthy (get r "start_date") = false
  \/ (exists sd ed, start_date_of r = Ok (Some sd)
                    /\ end_date_of r = Some ed /\ ed < sd) ->
  r ∉ active.
Proof.
  intros Hok Hr Hin. apply listing_ok_inv in Hok. subst active.
  apply list_elem_of_In, filter_In in Hin as [_ Hlisted].
  unfold listed in Hlisted. destruct Hr as [Hnone|(sd & ed & Hsd & Hed & Hlt)].
  - unfold start_date_of in Hlisted. rewrite Hnone in Hlisted. discriminate.
  - rewrite Hsd, Hed in Hlisted. simpl in Hlisted.
    apply andb_prop in Hlisted as [H1 H2].
    apply Z.leb_le in H1, H2. lia.
Qed.

(** The days on which a record is listed as active form an interval: a
    record listed on two days is listed on every day between them. *)
Theorem active_days_interval
    (docs : list doc) (r : doc) (t1 t2 t : Z) (a1 a2 : list doc) :
  list_medication (rt := on_day t1) docs true None = Ok a1 -> r ∈ a1 ->
  list_medication (rt := on_day t2) docs true None = Ok a2 -> r ∈ a2 ->
  t1 <= t <= t2 ->
  exists a, list_medication (rt := on_day t) docs true None = Ok a /\ r ∈ a.
Proof.
  intros H1 Hin1 H2 Hin2 Ht.
  destruct (all_or_some_fails (to_dict_list docs)) as [Hall|Hsome].
  2: { unfold list_medication in H1.
       change (active_loop (rt := on_day t1)) with (active_loop (rt := rt)) in H1.
       change (to_dict_list (rt := on_day t1) docs) with (to_dict_list docs) in H1.
       rewrite (active_loop_fails _ _ _ Hsome) in H1. discriminate. }
  assert (Hday : forall d, list_medication (rt := on_day d) docs true None =
                   Ok (List.filter (listed d) (to_dict_list docs))).
  { intros d. unfold list_medication.
    change (active_loop (rt := on_day d)) with (active_loop (rt := rt)).
    change (to_dict_list (rt := on_day d) docs) with (to_dict_list docs).
    by rewrite (active_loop_ok _ _ _ Hall). }
  rewrite Hday in H1, H2. injection H1 as <-. injection H2 as <-.
  exists (List.filter (listed t) (to_dict_list docs)). split; [apply Hday|].
  apply list_elem_of_In, filter_In in Hin1 as [Hin Hl1].
  apply list_elem_of_In, filter_In in Hin2 as [_ Hl2].
  apply list_elem_of_In, filter_In. split; [exact Hin|].
  unfold listed in *. destruct (start_date_of r) as [[sd|]|]; try discriminate.
  simpl in *. apply andb_prop in Hl1 as [Hs1 He1].
  apply andb_prop in Hl2 as [Hs2 He2].
  apply Z.leb_le in Hs1, Hs2. apply andb_true_intro. split.
  - apply Z.leb_le. lia.
  - destruct (end_date_of r) as [ed|]; [|reflexivity].
    apply Z.leb_le in He1, He2. apply Z.leb_le. lia.
Qed.

End MedicationListing.

(** ** The last-bred index *)

Section LastBred.
Context {rt : Runtime}.

Lemma latest_is_Some (ds : list Z) (seen : option Z) :
  is_Some seen \/ ds <> [] -> is_Some (latest seen ds).
Proof.
  revert seen. induction ds as [|d ds IH]; intros seen [Hs|Hd]; simpl.
  - exact Hs.
  - done.
  - apply IH. left. by eexists.
  - apply IH. left. by eexists.
Qed.

Lemma latest_perm (ds ds' : list Z) :
  ds ≡ₚ ds' -> latest None ds = latest None ds'.
Proof.
  intros Hperm.
  destruct ds as [|d ds].
  { apply Permutation_nil_l in Hperm. by subst ds'. }
  destruct ds' as [|d' ds'].
  { by apply Permutation_nil_r in Hperm. }
  destruct (latest_is_Some (d :: ds) None) as [m Hm]; [by right|].
  destruct (latest_is_Some (d' :: ds') None) as [m' Hm']; [by right|].
  rewrite Hm, Hm'. f_equal.
  destruct (latest_max (d :: ds) None) as [_ H].
  destruct (H m Hm) as ([Habs|Hin] & Hle & _); [discriminate|].
  destruct (latest_max (d' :: ds') None) as [_ H'].
  destruct (H' m' Hm') as ([Habs|Hin'] & Hle' & _); [discriminate|].
  assert (m <= m') by (apply Hle'; by rewrite <- Hperm).
  assert (m' <= m) by (apply Hle; by rewrite Hperm).
  lia.
Qed.

(** The index built from the breedings holds, for a doe tag, the most
    recent of the dates of the breedings that reference the tag, blank
    tags, blank dates and dates that do not parse being ignored; it has no
    entry exactly when no such date exists. *)
Theorem last_bred_is_latest (breedings : list doc) (k : value) :
  let last_bred := index_breedings breedings ∅ in
  (last_bred !! k = None <-> dates_bred k breedings = [])
  /\ (forall m, last_bred !! k = Some m ->
        m ∈ dates_bred k breedings
        /\ forall d, d ∈ dates_bred k breedings -> d <= m).
Proof.
  intros last_bred. unfold last_bred.
  rewrite index_breedings_latest, lookup_empty. split.
  - split.
    + intros Hnone. destruct (dates_bred k breedings) as [|d ds] eqn:Hds;
        [reflexivity|].
      destruct (latest_is_Some (d :: ds) None) as [m Hm]; [by right|].
      congruence.
    + by intros ->.
  - intros m Hm. destruct (latest_max (dates_bred k breedings) None) as [_ H].
    destruct (H m Hm) as ([Habs|Hin] & Hle & _); [discriminate|].
    by split.
Qed.

Lemma index_breedings_perm (breedings breedings' : list doc) :
  breedings ≡ₚ breedings' ->
  index_breedings breedings ∅ = index_breedings breedings' ∅.
Proof.
  intros Hperm. apply map_eq. intros k.
  rewrite !index_breedings_latest. apply latest_perm.
  unfold dates_bred. by rewrite Hperm.
Qed.

(** The order of the breeding records has no influence: the index, and so
    the plan, are the same for any reordering of the breedings. *)
Theorem breedings_order_irrelevant
    (params : BreedingPlanInput) (rabbit_docs : list doc)
    (breeding_docs breeding_docs' : list doc) :
  breeding_docs ≡ₚ breeding_docs' ->
  index_breedings (to_dict_list breeding_docs) ∅ =
    index_breedings (to_dict_list breeding_docs') ∅
  /\ breeding_plan params rabbit_docs breeding_docs =
       breeding_plan params rabbit_docs breeding_docs'.
Proof.
  intros Hperm.
  assert (Hidx : index_breedings (to_dict_list breeding_docs) ∅ =
                 index_breedings (to_dict_list breeding_docs') ∅).
  { apply index_breedings_perm. unfold to_dict_list.
    by apply Permutation_map. }
  split; [exact Hidx|]. unfold breeding_plan. by rewrite Hidx.
Qed.

End LastBred.

(** ** Who is paired, and with whom *)

Section Pairing.
Context {rt : Runtime}.

Lemma get_VStr (r : doc) (k s : string) :
  get r k = VStr s <-> r !! k = Some (VStr s).
Proof.
  unfold get. destruct (r !! k) as [v|]; simpl; split; congruence.
Qed.

Lemma is_active_iff (sex : string) (r : doc) :
  is_active sex r = true <->
  r !! "sex" = Some (VStr sex)
  /\ (r !! "status" = None \/ r !! "status" = Some (VStr "active")).
Proof.
  unfold is_active, py_eq, get_or.
  rewrite andb_true_iff, !bool_decide_eq_true, get_VStr.
  destruct (r !! "status") as [v|]; simpl; split.
  - intros [Hsex ->]. by split; [|right].
  - intros [Hsex [Hst|Hst]]; [discriminate|]. by injection Hst as ->.
  - intros [Hsex _]. by split; [|left].
  - by intros [Hsex _].
Qed.

Lemma is_active_to_dict_list (sex : string) (docs : list doc) :
  List.filter (is_active sex) (to_dict_list docs) =
    to_dict_list (List.filter (is_active sex) docs).
Proof.
  induction docs as [|d docs IH]; [reflexivity|].
  rewrite to_dict_list_cons. cbn [List.filter].
  assert (Hsame : is_active sex
                    match d !! "_id" with
                    | Some i => <["_id" := VStr (str i)]> d
                    | None => d
                    end = is_active sex d).
  { destruct (d !! "_id"); [|reflexivity].
    unfold is_active, get, get_or. by rewrite !lookup_insert_ne. }
  rewrite Hsame. destruct (is_active sex d); [|exact IH].
  by rewrite to_dict_list_cons, IH.
Qed.

Lemma filter_filter_absorb {A} (p q : A -> bool) (l : list A) :
  (forall x, p x = true -> q x = true) ->
  List.filter p (List.filter q l) = List.filter p l.
Proof.
  intros Hpq. induction l as [|x l IH]; [reflexivity|]. simpl.
  destruct (q x) eqn:Hq; simpl.
  - by rewrite IH.
  - destruct (p x) eqn:Hp; [|exact IH].
    rewrite (Hpq x Hp) in Hq. discriminate.
Qed.

(** Rabbits that pass the base filter of neither sex have no influence:
    the plan is the plan for the herd without them. *)
Theorem non_candidates_irrelevant
    (params : BreedingPlanInput) (rabbit_docs breeding_docs : list doc) :
  breeding_plan params (List.filter is_candidate rabbit_docs) breeding_docs =
    breeding_plan params rabbit_docs breeding_docs.
Proof.
  unfold breeding_plan.
  rewrite (is_active_to_dict_list "doe" (List.filter _ _)).
  rewrite (is_active_to_dict_list "buck" (List.filter _ _)).
  rewrite (is_active_to_dict_list "doe" rabbit_docs).
  rewrite (is_active_to_dict_list "buck" rabbit_docs).
  rewrite !filter_filter_absorb; [reflexivity| |];
    intros x Hx; unfold is_candidate; rewrite Hx; by rewrite ?orb_true_r.
Qed.

(** Every suggested pair joins a listed rabbit of sex "doe" with a listed
    rabbit of sex "buck", both with the status "active" or without a
    status; the doe passed the age and cooldown checks and the buck the
    age check.  So no sold, retired or deceased rabbit, no rabbit with a
    null status and no two rabbits of the same sex are ever paired. *)
Theorem pairs_from_active_rabbits
    (params : BreedingPlanInput) (rabbit_docs breeding_docs : list doc)
    (p : pair) :
  p ∈ suggested_pairs (breeding_plan params rabbit_docs breeding_docs) ->
  exists doe buck,
    doe ∈ to_dict_list rabbit_docs /\ buck ∈ to_dict_list rabbit_docs
    /\ p = make_pair doe buck
    /\ doe !! "sex" = Some (VStr "doe")
    /\ buck !! "sex" = Some (VStr "buck")
    /\ (doe !! "status" = None \/ doe !! "status" = Some (VStr "active"))
    /\ (buck !! "status" = None \/ buck !! "status" = Some (VStr "active"))
    /\ too_young (age_in_days doe) (min_doe_age_days params) = false
    /\ in_cooldown
         (index_breedings (to_dict_list breeding_docs) ∅ !! get doe "tag")
         (cooldown_days params) = false
    /\ too_young (age_in_days buck) (min_buck_age_days params) = false.
Proof.
  rewrite plan_pairs. intros Hp.
  apply list_elem_of_omap in Hp as (doe & Hdoe & Hs).
  apply suggestion_inv in Hs
    as (Hready & before & buck & after & Hb & -> & Hok & _).
  assert (Hbuck : buck ∈ candidates "buck" rabbit_docs).
  { rewrite Hb. apply elem_of_app. right. apply elem_of_cons. by left. }
  unfold candidates in Hdoe, Hbuck.
  apply list_elem_of_In, filter_In in Hdoe as [Hdin Hdact].
  apply list_elem_of_In, filter_In in Hbuck as [Hbin Hbact].
  apply is_active_iff in Hdact as [Hdsex Hdst].
  apply is_active_iff in Hbact as [Hbsex Hbst].
  unfold doe_ready in Hready. apply andb_prop in Hready as [Hage Hcool].
  apply negb_true_iff in Hage, Hcool.
  unfold eligible_buck in Hok. apply andb_prop in Hok as [Hbage _].
  apply negb_true_iff in Hbage.
  exists doe, buck.
  split_and!; try done; by apply list_elem_of_In.
Qed.

Lemma omap_none {A B} (f : A -> option B) (l : list A) :
  (forall x, f x = None) -> omap f l = [].
Proof.
  intros Hf. induction l as [|x l IH]; [reflexivity|].
  change (omap f (x :: l)) with
    (match f x with Some y => y :: omap f l | None => omap f l end).
  by rewrite Hf.
Qed.

(** Without a candidate doe, or without a candidate buck, the plan has no
    pair and no task, and its count of suggestions is zero. *)
Theorem no_candidates_no_plan
    (params : BreedingPlanInput) (rabbit_docs breeding_docs : list doc) :
  candidates "doe" rabbit_docs = [] \/ candidates "buck" rabbit_docs = [] ->
  let res := breeding_plan params rabbit_docs breeding_docs in
  suggested_pairs res = [] /\ tasks res = []
  /\ suggested_count (plan_summary res) = 0%nat.
Proof.
  intros Hnone res.
  assert (Hpairs : suggested_pairs res = []).
  { unfold res. rewrite plan_pairs. destruct Hnone as [-> | ->].
    - reflexivity.
    - apply omap_none. intros doe. unfold suggestion.
      by destruct (doe_ready _ _ _). }
  change (tasks res) with (map make_task (suggested_pairs res)).
  change (suggested_count (plan_summary res))
    with (length (suggested_pairs res)).
  by rewrite Hpairs.
Qed.

(** A buck is not reserved by a suggestion: the first candidate buck is
    suggested to every candidate doe that passes her checks and for whom
    he is eligible, however many does that is. *)
Theorem buck_not_reserved
    (params : BreedingPlanInput) (rabbit_docs breeding_docs : list doc)
    (doe buck : doc) (rest : list doc) :
  candidates "buck" rabbit_docs = buck :: rest ->
  doe ∈ candidates "doe" rabbit_docs ->
  doe_ready params (index_breedings (to_dict_list breeding_docs) ∅) doe = true ->
  eligible_buck params doe buck = true ->
  make_pair doe buck
    ∈ suggested_pairs (breeding_plan params rabbit_docs breeding_docs).
Proof.
  intros Hbucks Hdoe Hready Hok. rewrite plan_pairs.
  apply list_elem_of_omap. exists doe. split; [exact Hdoe|].
  unfold suggestion. rewrite Hready, Hbucks. simpl. by rewrite Hok.
Qed.

Lemma omap_length_mono {A B} (f g : A -> option B) (l : list A) :
  (forall x, is_Some (f x) -> is_Some (g x)) ->
  (length (omap f l) <= length (omap g l))%nat.
Proof.
  intros Hfg. induction l as [|x l IH]; [reflexivity|].
  change (omap f (x :: l)) with
    (match f x with Some y => y :: omap f l | None => omap f l end).
  change (omap g (x :: l)) with
    (match g x with Some y => y :: omap g l | None => omap g l end).
  destruct (f x) as [y|] eqn:Hf.
  - destruct (Hfg x) as [z Hz]; [by eexists|]. rewrite Hz. simpl. lia.
  - destruct (g x); simpl; lia.
Qed.

Lemma too_young_mono (age : option Z) (m m' : Z) :
  m <= m' -> too_young age m' = false -> too_young age m = false.
Proof.
  destruct age as [a|]; simpl; [|done].
  intros Hm Hy. apply Z.ltb_ge in Hy. apply Z.ltb_ge. lia.
Qed.

(** Tightening the policy never adds suggestions: with larger minimum ages
    and a longer cooldown, every doe that gets a pair also gets one under
    the looser policy, so the plan has at most as many pairs. *)
Theorem stricter_policy_fewer_pairs
    (strict loose : BreedingPlanInput) (rabbit_docs breeding_docs : list doc) :
  stricter strict loose ->
  (length (suggested_pairs (breeding_plan strict rabbit_docs breeding_docs))
   <= length (suggested_pairs (breeding_plan loose rabbit_docs breeding_docs)))%nat.
Proof.
  intros (Hdoe & Hbuck & Hcool). rewrite !plan_pairs.
  apply omap_length_mono. intros doe [p Hp].
  apply suggestion_inv in Hp
    as (Hready & before & buck & after & Hb & _ & Hok & _).
  unfold suggestion.
  assert (doe_ready loose
            (index_breedings (to_dict_list breeding_docs) ∅) doe = true) as ->.
  { unfold doe_ready in *. apply andb_prop in Hready as [Hage Hcd].
    apply negb_true_iff in Hage, Hcd. apply andb_true_intro. split.
    - apply negb_true_iff. by apply (too_young_mono _ _ _ Hdoe).
    - apply negb_true_iff. unfold in_cooldown in *.
      destruct (_ !! get doe "tag"); [|done].
      apply Z.ltb_ge in Hcd. apply Z.ltb_ge. lia. }
  destruct (List.find (eligible_buck loose doe) (candidates "buck" rabbit_docs))
    eqn:Hfind; [by eexists|].
  assert (eligible_buck loose doe buck = false) as Hno.
  { apply (find_none _ _ Hfind). rewrite Hb. apply in_or_app. right. by left. }
  unfold eligible_buck in *. apply andb_prop in Hok as [Hage Hrel].
  apply negb_true_iff in Hage.
  rewrite (too_young_mono _ _ _ Hbuck Hage), Hrel in Hno. discriminate.
Qed.

(** The scan of the does only appends: the pairs suggested so far stay in
    front as they are, and scanning two herds in a row gives the pairs of
    the first followed by the pairs of the second. *)
Theorem scan_does_appends
    (params : BreedingPlanInput) (last_bred : gmap value Z)
    (bucks does1 does2 : list doc) (suggested : list pair) :
  scan_does params last_bred bucks (does1 ++ does2) suggested =
    suggested ++ scan_does params last_bred bucks does1 []
              ++ scan_does params last_bred bucks does2 [].
Proof. rewrite !scan_does_omap, omap_app. reflexivity. Qed.

(** The age of a rabbit is today minus its date of birth, whether the
    date is stored as a date or as its ISO text; hence a rabbit born after
    today is too young for every minimum age that is not negative. *)
Theorem age_from_date_of_birth (r : doc) (minimum : Z) :
  age_in_days r = (fun d => date_today - d) <$> field_date (get r "dob")
  /\ (forall d, field_date (get r "dob") = Some d -> date_today < d ->
        0 <= minimum -> too_young (age_in_days r) minimum = true).
Proof.
  assert (Hage : age_in_days r =
                 (fun d => date_today - d) <$> field_date (get r "dob")).
  { unfold age_in_days. destruct (get r "dob") as [|s|d]; simpl; try done.
    destruct (String.eqb s ""); simpl; [done|].
    by destruct (fromisoformat s). }
  split; [exact Hage|].
  intros d Hd Hfuture Hmin. rewrite Hage, Hd. simpl. apply Z.ltb_lt. lia.
Qed.

End Pairing.

(** ** The symptom checker on arbitrary symptom lists *)

Section SymptomLists.
Context {rt : Runtime} {tx : PyText}.

Lemma normalized_elem (symptoms : list string) (x : string) :
  x ∈ normalized symptoms <->
  exists s, s ∈ symptoms /\ str_strip s <> ""
            /\ x = str_lower (str_strip s).
Proof.
  unfold normalized. rewrite list_elem_of_In, in_map_iff.
  split.
  - intros (s & <- & Hs). apply filter_In in Hs as [Hin Hne].
    exists s. split_and!; [by apply list_elem_of_In| |reflexivity].
    apply negb_true_iff in Hne. by apply String.eqb_neq.
  - intros (s & Hin & Hne & ->). exists s. split; [reflexivity|].
    apply filter_In. split; [by apply list_elem_of_In|].
    apply negb_true_iff. by apply String.eqb_neq.
Qed.

Lemma normalize_elem (symptoms : list string) (x : string) :
  x ∈ normalize symptoms <->
  exists s, s ∈ symptoms /\ str_strip s <> ""
            /\ x = str_lower (str_strip s).
Proof. unfold normalize. by rewrite elem_of_list_to_set, normalized_elem. Qed.

Lemma matches_iff (symptoms : gset string) (r : rule) :
  matches symptoms r = true <-> exists x, x ∈ symptoms /\ x ∈ match_any r.
Proof.
  unfold matches. rewrite bool_decide_eq_true. split.
  - intros Hne. apply set_choose_L in Hne as [x Hx].
    exists x. by apply elem_of_intersection.
  - intros (x & H1 & H2) Hempty.
    assert (x ∈ symptoms ∩ match_any r) as Hx by by apply elem_of_intersection.
    rewrite Hempty in Hx. by apply not_elem_of_empty in Hx.
Qed.

Lemma check_findings (payload : SymptomCheck) (hist_docs : list doc) :
  probable_conditions (symptom_check payload hist_docs) =
    map finding_of
        (List.filter (matches (normalize (sc_symptoms payload))) rules).
Proof.
  change (probable_conditions (symptom_check payload hist_docs))
    with (match_rules (normalize (sc_symptoms payload)) rules []).
  by rewrite match_rules_filter, app_nil_l.
Qed.

Lemma rules_distinct (r r' : rule) :
  In r rules -> In r' rules -> finding_of r' = finding_of r -> r' = r.
Proof.
  unfold rules. intros Hr Hr' Heq.
  assert (Hc : rule_condition r' = rule_condition r)
    by exact (f_equal condition Heq).
  clear Heq. simpl in Hr, Hr'.
  repeat (destruct Hr as [<-|Hr]; [|]); try contradiction;
    repeat (destruct Hr' as [<-|Hr']; [|]); try contradiction;
    first [reflexivity | discriminate Hc].
Qed.

(** A rule contributes its finding exactly when one of the submitted
    symptoms is not empty once stripped and, stripped and lower-cased by
    the runtime, is one of its trigger phrases: the match is on whole
    phrases.  The findings follow the order of the rule table, so there
    are at most five. *)
Theorem finding_iff_trigger_submitted
    (payload : SymptomCheck) (hist_docs : list doc) (r : rule) :
  In r rules ->
  (finding_of r ∈ probable_conditions (symptom_check payload hist_docs) <->
   exists s, s ∈ sc_symptoms payload
             /\ str_lower (str_strip s) ∈ match_any r
             /\ str_strip s <> "")
  /\ sublist (probable_conditions (symptom_check payload hist_docs))
             (map finding_of rules)
  /\ (length (probable_conditions (symptom_check payload hist_docs)) <= 5)%nat.
Proof.
  intros Hr. rewrite check_findings.
  assert (Hsub : sublist
            (map finding_of
               (List.filter (matches (normalize (sc_symptoms payload))) rules))
            (map finding_of rules)).
  { generalize rules. intros rs. induction rs as [|r0 rs IH]; simpl.
    - constructor.
    - destruct (matches _ r0); simpl; by constructor. }
  split_and!.
  - rewrite list_elem_of_In, in_map_iff. split.
    + intros (r' & Heq & Hin). apply filter_In in Hin as [Hin Hm].
      apply (rules_distinct r r' Hr Hin) in Heq. subst r'.
      apply matches_iff in Hm as (x & Hx & Htrig).
      apply normalize_elem in Hx as (s & Hs & Hne & ->). by exists s.
    + intros (s & Hs & Htrig & Hne). exists r. split; [reflexivity|].
      apply filter_In. split; [exact Hr|].
      apply matches_iff. exists (str_lower (str_strip s)).
      split; [|exact Htrig].
      apply normalize_elem. by exists s.
  - exact Hsub.
  - apply sublist_length in Hsub. exact Hsub.
Qed.

(** Only the set of the submitted symptoms counts: their order, their
    repetitions, blank entries, the rabbit tag and the health history have
    no influence on the findings and on the overall severity.  The
    reported symptoms are a list whose order may change; its elements do
    not, as long as [list(set)] lists the elements of the set. *)
Theorem symptoms_as_a_set
    (payload payload' : SymptomCheck) (hist_docs hist_docs' : list doc) :
  (forall s, str_strip s <> "" ->
     (s ∈ sc_symptoms payload <-> s ∈ sc_symptoms payload')) ->
  let res := symptom_check payload hist_docs in
  let res' := symptom_check payload' hist_docs' in
  probable_conditions res = probable_conditions res'
  /\ overall_severity res = overall_severity res'
  /\ ((forall items x, x ∈ set_list items <-> x ∈ items) ->
      forall x, x ∈ reported_symptoms res <-> x ∈ reported_symptoms res').
Proof.
  intros Hsame res res'.
  assert (Helem : forall x, x ∈ normalized (sc_symptoms payload)
                            <-> x ∈ normalized (sc_symptoms payload')).
  { intros x. rewrite !normalized_elem.
    split; intros (s & Hs & Hne & Hx); exists s;
      (split; [by apply (Hsame s Hne)|by split]). }
  assert (Hnorm : normalize (sc_symptoms payload)
                  = normalize (sc_symptoms payload')).
  { apply set_eq. intros x. unfold normalize.
    by rewrite !elem_of_list_to_set. }
  assert (Hfind : probable_conditions res = probable_conditions res').
  { unfold res, res'. by rewrite !check_findings, Hnorm. }
  split_and!.
  - exact Hfind.
  - change (overall (probable_conditions res)
            = overall (probable_conditions res')).
    by rewrite Hfind.
  - intros Hlist x.
    change (x ∈ set_list (normalized (sc_symptoms payload))
            <-> x ∈ set_list (normalized (sc_symptoms payload'))).
    by rewrite !Hlist.
Qed.

Lemma findings_sublist_mono (s s' : gset string) (rs : list rule) :
  s ⊆ s' ->
  sublist (map finding_of (List.filter (matches s) rs))
          (map finding_of (List.filter (matches s') rs)).
Proof.
  intros Hsub. induction rs as [|r rs IH]; simpl; [constructor|].
  destruct (matches s r) eqn:Hm.
  - assert (matches s' r = true) as ->.
    { apply matches_iff in Hm as (x & Hx & Ht). apply matches_iff.
      exists x. split; [by apply Hsub|exact Ht]. }
    simpl. by constructor.
  - destruct (matches s' r); simpl; [by constructor|exact IH].
Qed.

(** Reporting more symptoms never removes a finding and never lowers the
    overall severity. *)
Theorem more_symptoms_more_findings
    (payload payload' : SymptomCheck) (hist_docs hist_docs' : list doc) :
  (forall s, s ∈ sc_symptoms payload -> s ∈ sc_symptoms payload') ->
  let res := symptom_check payload hist_docs in
  let res' := symptom_check payload' hist_docs' in
  sublist (probable_conditions res) (probable_conditions res')
  /\ (severity_rank (overall_severity res)
      <= severity_rank (overall_severity res'))%nat.
Proof.
  intros Hincl res res'.
  assert (Hsub : sublist (probable_conditions res) (probable_conditions res')).
  { unfold res, res'. rewrite !check_findings.
    apply findings_sublist_mono. intros x Hx.
    apply normalize_elem in Hx as (s & Hs & Hne & ->).
    apply normalize_elem. exists s. split; [by apply Hincl|by split]. }
  split; [exact Hsub|].
  assert (Hsev : forall p h, Forall (fun f => severity f = "low"
                    \/ severity f = "medium" \/ severity f = "high")
                   (probable_conditions (symptom_check p h))).
  { intros p h. apply Forall_forall. intros f Hf.
    by apply findings_severity in Hf. }
  destruct (overall_highest _ (Hsev payload hist_docs)) as (_ & Hmax & Hnil).
  destruct (overall_highest _ (Hsev payload' hist_docs')) as (Hle & _ & _).
  change (overall_severity res) with (overall (probable_conditions res)).
  change (overall_severity res') with (overall (probable_conditions res')).
  fold res in Hmax, Hnil. fold res' in Hle.
  destruct (probable_conditions res) as [|f0 fs] eqn:Hfs.
  - rewrite Hnil by reflexivity. unfold severity_rank at 1. simpl. lia.
  - destruct Hmax as (f & Hf & <-); [done|].
    apply Hle. by apply (elem_of_sublist _ _ _ Hf Hsub).
Qed.

End SymptomLists.

(** ** What the list endpoints ask of the store *)

Section Queries.
Context {rt : Runtime}.
Variable get_documents : string -> gmap string value -> option Z -> list doc.

Lemma set_if_nonblank (k : string) (x : option string)
    (filt : gmap string value) :
  set_if k (nonblank x) filt = set_if k x filt.
Proof.
  destruct x as [s|]; [|reflexivity]. simpl.
  destruct (String.eqb s "") eqn:Hs; simpl; [reflexivity|]. by rewrite Hs.
Qed.

Lemma set_if_lookup (k k' : string) (x : option string)
    (filt : gmap string value) :
  set_if k x filt !! k' =
    if decide (k = k')
    then match nonblank x with
         | Some s => Some (VStr s)
         | None => filt !! k'
         end
    else filt !! k'.
Proof.
  unfold set_if, nonblank. destruct x as [s|]; [|by case_decide].
  destruct (String.eqb s ""); [by case_decide|].
  case_decide as Hk.
  - subst k'. apply lookup_insert_eq.
  - by apply lookup_insert_ne.
Qed.

(** [GET /rabbits] asks the collection "rabbit" for the documents equal to
    the given tag, sex and status, a parameter that is absent or empty
    putting no condition; it passes the cap on and stringifies the
    identifiers of what it gets. *)
Theorem list_rabbits_query (tag sex status : option string) (limit : option Z) :
  exists filt,
    list_rabbits get_documents tag sex status limit =
      to_dict_list (get_documents "rabbit" filt limit)
    /\ filt !! "tag" = VStr <$> nonblank tag
    /\ filt !! "sex" = VStr <$> nonblank sex
    /\ filt !! "status" = VStr <$> nonblank status
    /\ (forall k, k <> "tag" -> k <> "sex" -> k <> "status" ->
          filt !! k = None).
Proof.
  eexists. split; [reflexivity|].
  split_and!.
  - rewrite !set_if_lookup. repeat case_decide; try done;
      try by destruct (nonblank tag).
  - rewrite !set_if_lookup. repeat case_decide; try done;
      try by destruct (nonblank sex).
  - rewrite !set_if_lookup. repeat case_decide; try done;
      try by destruct (nonblank status).
  - intros k H1 H2 H3. rewrite !set_if_lookup.
    repeat case_decide; try done.
Qed.

(** [GET /litters] asks the collection "litter" for the doe tag and, as a
    date, for the kindling date; a kindling date that is empty or does not
    parse is dropped without an error, so that the answer is the one
    without a kindling date. *)
Theorem list_litters_query
    (doe_tag kindling_date : option string) (limit : option Z) :
  (exists filt,
     list_litters get_documents doe_tag kindling_date limit =
       to_dict_list (get_documents "litter" filt limit)
     /\ filt !! "doe_tag" = VStr <$> nonblank doe_tag
     /\ filt !! "kindling_date" = VDate <$> parse_date_safe kindling_date
     /\ (forall k, k <> "doe_tag" -> k <> "kindling_date" ->
           filt !! k = None))
  /\ (parse_date_safe kindling_date = None ->
      list_litters get_documents doe_tag kindling_date limit =
        list_litters get_documents doe_tag None limit).
Proof.
  split.
  - eexists. split; [reflexivity|].
    destruct (parse_date_safe kindling_date) as [d|]; simpl; split_and!.
    + rewrite lookup_insert_ne by done. rewrite set_if_lookup.
      case_decide; [|done]. by destruct (nonblank doe_tag).
    + by rewrite lookup_insert_eq.
    + intros k H1 H2. rewrite lookup_insert_ne by done.
      rewrite set_if_lookup. by case_decide.
    + rewrite set_if_lookup. case_decide; [|done].
      by destruct (nonblank doe_tag).
    + rewrite set_if_lookup. by case_decide.
    + intros k H1 H2. rewrite set_if_lookup. by case_decide.
  - intros Hnone. unfold list_litters. by rewrite Hnone.
Qed.

(** An empty query parameter is an absent one, on every list endpoint. *)
Theorem blank_parameters_ignored
    (a b c : option string) (limit : option Z)
    (active_only : bool) (today : option string) :
  list_rabbits get_documents a b c limit =
    list_rabbits get_documents (nonblank a) (nonblank b) (nonblank c) limit
  /\ list_health_records get_documents a limit =
       list_health_records get_documents (nonblank a) limit
  /\ list_breedings get_documents a b c limit =
       list_breedings get_documents (nonblank a) (nonblank b) (nonblank c) limit
  /\ list_litters get_documents a b limit =
       list_litters get_documents (nonblank a) (nonblank b) limit
  /\ list_tasks get_documents a b limit =
       list_tasks get_documents (nonblank a) (nonblank b) limit
  /\ medication_endpoint get_documents a active_only today limit =
       medication_endpoint get_documents (nonblank a) active_only
         (nonblank today) limit.
Proof.
  assert (Hdate : forall x, parse_date_safe (nonblank x) = parse_date_safe x).
  { intros [s|]; [|reflexivity]. simpl.
    destruct (String.eqb s "") eqn:Hs; simpl; [reflexivity|]. by rewrite Hs. }
  unfold list_rabbits, list_health_records, list_breedings, list_litters,
    list_tasks, medication_endpoint, list_medication.
  rewrite !set_if_nonblank, !Hdate. by split_and!.
Qed.

Lemma to_dict_list_ids (docs : list doc) :
  Forall id_is_text (to_dict_list docs).
Proof.
  induction docs as [|d docs IH]; [constructor|].
  rewrite to_dict_list_cons. constructor; [|exact IH].
  unfold id_is_text. destruct (d !! "_id") as [i|] eqn:Hid.
  - right. exists (str i). apply lookup_insert_eq.
  - by left.
Qed.

(** Whatever the store returns, every document that a list endpoint
    answers with has a text as its identifier, or none; this holds for the
    medication listing too, with or without [active_only], when it
    returns. *)
Theorem listed_ids_are_text
    (a b c : option string) (limit : option Z)
    (active_only : bool) (today : option string) (listing : list doc) :
  Forall id_is_text (list_rabbits get_documents a b c limit)
  /\ Forall id_is_text (list_health_records get_documents a limit)
  /\ Forall id_is_text (list_breedings get_documents a b c limit)
  /\ Forall id_is_text (list_litters get_documents a b limit)
  /\ Forall id_is_text (list_tasks get_documents a b limit)
  /\ (medication_endpoint get_documents a active_only today limit = Ok listing ->
      Forall id_is_text listing).
Proof.
  split_and!; try apply to_dict_list_ids.
  unfold medication_endpoint. destruct active_only.
  - intros Hok. apply listing_ok_inv in Hok. subst listing.
    apply Forall_forall. intros r Hr.
    apply list_elem_of_In, filter_In in Hr as [Hr _].
    pose proof (to_dict_list_ids
                  (get_documents (collection_name "MedicationSchedule")
                     (set_if "rabbit_tag" a ∅) limit)) as Hall.
    rewrite Forall_forall in Hall. by apply Hall, list_elem_of_In.
  - intros [= <-]. apply to_dict_list_ids.
Qed.

End Queries.

(** ** The further properties on the documents of the examples *)

(** The schedule that ends before it starts is not among the active ones
    of 2024-06-15. *)
Lemma never_active_witness :
  MoreExamples.med_backwards ∉ [Example.med_open].
Proof.
  apply (never_active (rt := Example.rt)
           [Example.med_open; MoreExamples.med_backwards] None).
  - by_compute.
  - right. exists 739047, 739038. split_and!; by_compute.
Defined.

(** The schedule from 2024-06-01 to 2024-06-14 is active on both days and
    so on 2024-06-08. *)
Lemma active_days_interval_witness :
  exists a,
    list_medication (rt := on_day (rt := Example.rt) 739045)
      [Example.med_ended] true None = Ok a
    /\ Example.med_ended ∈ a.
Proof.
  apply (active_days_interval (rt := Example.rt) [Example.med_ended]
           Example.med_ended 739038 739051 739045
           [Example.med_ended] [Example.med_ended]).
  - by_compute.
  - by_compute.
  - by_compute.
  - by_compute.
  - by_compute.
Defined.

(** The parameter [today=2024-06-20] makes the listing answer as on that
    day. *)
Lemma today_parameter_witness :
  list_medication (rt := Example.rt)
    [Example.med_open; Example.med_ended] true (Some "2024-06-20")
  = list_medication (rt := on_day (rt := Example.rt) 739057)
      [Example.med_open; Example.med_ended] true None.
Proof.
  apply (today_parameter_overrides_clock (rt := Example.rt)). by_compute.
Defined.

(** The two breedings of the examples in the other order give the same
    plan. *)
Lemma breedings_order_witness :
  breeding_plan (rt := Example.rt) Example.defaults Example.herd
    [Example.bred_14; Example.bred_13]
  = breeding_plan (rt := Example.rt) Example.defaults Example.herd
      [Example.bred_13; Example.bred_14].
Proof.
  apply (breedings_order_irrelevant (rt := Example.rt)). apply perm_swap.
Defined.

(** [D3], bred 14 days ago and before that on 2024-01-05, has the later
    date in the index. *)
Lemma last_bred_witness :
  739038 ∈ dates_bred (rt := Example.rt) (VStr "D3")
             [Example.breeding "D3" "B2" (VStr "2024-01-05"); Example.bred_14;
              Example.breeding "D3" "B2" (VStr "soon")]
  /\ forall d,
       d ∈ dates_bred (rt := Example.rt) (VStr "D3")
             [Example.breeding "D3" "B2" (VStr "2024-01-05"); Example.bred_14;
              Example.breeding "D3" "B2" (VStr "soon")] ->
       d <= 739038.
Proof.
  apply (last_bred_is_latest (rt := Example.rt)). by_compute.
Defined.

(** The pair of the plan of the examples joins a doe and a buck. *)
Lemma pairs_from_active_rabbits_witness :
  exists doe buck,
    make_pair (rt := Example.rt) Example.doe_old Example.buck_B0
      = make_pair (rt := Example.rt) doe buck
    /\ doe !! "sex" = Some (VStr "doe")
    /\ buck !! "sex" = Some (VStr "buck").
Proof.
  destruct (pairs_from_active_rabbits (rt := Example.rt) Example.defaults
              Example.herd [Example.bred_14; Example.bred_13]
              (make_pair (rt := Example.rt) Example.doe_old Example.buck_B0))
    as (doe & buck & _ & _ & Hp & Hdoe & Hbuck & _).
  - by_compute.
  - by exists doe, buck.
Defined.

(** A herd of does, one of them sold, has no plan. *)
Lemma no_candidates_witness :
  suggested_pairs
    (breeding_plan (rt := Example.rt) Example.defaults
       [Example.doe_old; MoreExamples.doe_sold] []) = []
  /\ tasks
       (breeding_plan (rt := Example.rt) Example.defaults
          [Example.doe_old; MoreExamples.doe_sold] []) = []
  /\ suggested_count
       (plan_summary
          (breeding_plan (rt := Example.rt) Example.defaults
             [Example.doe_old; MoreExamples.doe_sold] [])) = 0%nat.
Proof.
  apply (no_candidates_no_plan (rt := Example.rt)). right. by_compute.
Defined.

(** The only buck [B2] is suggested to [D3] and to [D4] alike. *)
Lemma buck_not_reserved_witness :
  make_pair (rt := Example.rt) Example.doe_old Example.buck_B2
    ∈ suggested_pairs
        (breeding_plan (rt := Example.rt) Example.defaults
           [Example.buck_B2; Example.doe_old; Example.doe_no_dob] [])
  /\ make_pair (rt := Example.rt) Example.doe_no_dob Example.buck_B2
       ∈ suggested_pairs
           (breeding_plan (rt := Example.rt) Example.defaults
              [Example.buck_B2; Example.doe_old; Example.doe_no_dob] []).
Proof.
  split.
  - apply (buck_not_reserved (rt := Example.rt) _ _ _ _ _ []); by_compute.
  - apply (buck_not_reserved (rt := Example.rt) _ _ _ _ _ []); by_compute.
Defined.

(** With every threshold at 200 days the herd of the examples gets no more
    pairs than with the defaults. *)
Lemma stricter_policy_witness :
  (length (suggested_pairs
             (breeding_plan (rt := Example.rt) MoreExamples.strict
                Example.herd [Example.bred_14; Example.bred_13]))
   <= length (suggested_pairs
                (breeding_plan (rt := Example.rt) Example.defaults
                   Example.herd [Example.bred_14; Example.bred_13])))%nat.
Proof.
  apply (stricter_policy_fewer_pairs (rt := Example.rt)).
  unfold stricter. split_and!; by_compute.
Defined.

(** A rabbit born on 2025-01-01 is too young on 2024-06-15, even for the
    minimum age 0. *)
Lemma age_from_date_of_birth_witness :
  too_young
    (age_in_days (rt := Example.rt)
       (Example.rabbit "D8" "doe" (VStr "2025-01-01") VNone VNone)) 0 = true.
Proof.
  apply (age_from_date_of_birth (rt := Example.rt) _ 0) with (d := 739252);
    by_compute.
Defined.

(** " Runny Stool" triggers the first rule of the table. *)
Lemma finding_iff_trigger_witness :
  finding_of (hd (Build_rule ∅ "" "" [] []) rules)
    ∈ probable_conditions
        (symptom_check (rt := Example.rt) (tx := ascii_text)
           {| sc_rabbit_tag := None; sc_symptoms := [" Runny Stool"] |} []).
Proof.
  destruct (finding_iff_trigger_submitted (rt := Example.rt)
              (tx := ascii_text)
              {| sc_rabbit_tag := None; sc_symptoms := [" Runny Stool"] |} []
              (hd (Build_rule ∅ "" "" [] []) rules)) as [[_ Hfind] _].
  - left. reflexivity.
  - apply Hfind. exists " Runny Stool". split_and!; by_compute.
Defined.

(** "bloat" twice, in two spellings and with a blank entry, is "bloat"
    once. *)
Lemma symptoms_as_a_set_witness :
  probable_conditions
    (symptom_check (rt := Example.rt) (tx := ascii_text)
       {| sc_rabbit_tag := Some "D1";
          sc_symptoms := ["bloat"; "Bloat "; " "] |} [Example.doe_154])
  = probable_conditions
      (symptom_check (rt := Example.rt) (tx := ascii_text)
         {| sc_rabbit_tag := None; sc_symptoms := ["Bloat "; "bloat"] |} []).
Proof.
  apply (symptoms_as_a_set (rt := Example.rt) (tx := ascii_text)). simpl.
  intros s Hne. split; intros H;
    repeat (apply elem_of_cons in H as [->|H]);
    try (by apply elem_of_nil in H);
    try (exfalso; apply Hne; reflexivity);
    by_compute.
Defined.

(** Adding "bloat" to "diarrhea" keeps the finding and does not lower the
    severity. *)
Lemma more_symptoms_witness :
  sublist
    (probable_conditions
       (symptom_check (rt := Example.rt) (tx := ascii_text)
          {| sc_rabbit_tag := None; sc_symptoms := ["diarrhea"] |} []))
    (probable_conditions
       (symptom_check (rt := Example.rt) (tx := ascii_text)
          {| sc_rabbit_tag := None; sc_symptoms := ["diarrhea"; "bloat"] |} []))
  /\ (severity_rank
        (overall_severity
           (symptom_check (rt := Example.rt) (tx := ascii_text)
              {| sc_rabbit_tag := None; sc_symptoms := ["diarrhea"] |} []))
      <= severity_rank
           (overall_severity
              (symptom_check (rt := Example.rt) (tx := ascii_text)
                 {| sc_rabbit_tag := None;
                    sc_symptoms := ["diarrhea"; "bloat"] |} [])))%nat.
Proof.
  apply (more_symptoms_more_findings (rt := Example.rt) (tx := ascii_text)).
  simpl.
  intros s H. apply list_elem_of_singleton in H as ->. by_compute.
Defined.
